(** * Bank term-deposit predictor: the Streamlit script [app.py]

    A shallow embedding of [load_model], [get_user_input] and [main]
    together with the fragments of Python, numpy, pandas and Streamlit
    they run on. A run of the script is a computation in a monad that
    threads the page drawn so far, the calls made to the model and the
    resource cache of the process, and that ends by returning, by raising
    or by the stop signal of [st.stop]. The properties follow: the
    engineered features, the recommendation bands, the loader, and the
    page a run leaves when the model is absent or rejects the frame. *)

From Stdlib Require Import ZArith List String Ascii Bool Lia.
From Stdlib Require Import DecimalString.
From Stdlib Require Import Floats.
Import ListNotations.
Local Open Scope string_scope.
Local Open Scope Z_scope.
Set Warnings "-inexact-float".

(** ** Python values *)

(** The scalars that flow through the form: [int], [float] (binary64) and
    [str], and [None]. *)
Inductive Scalar :=
| Int (n : Z)
| Float (x : float)
| Str (s : string)
| NoneV.

(** An instance of [Exception] or of a subclass: the name of its class and
    what [str(e)] gives. *)
Record Exception := mkException { exc_class : string; str : string }.

Definition TypeError (msg : string) : Exception := mkException "TypeError" msg.
Definition IndexError (msg : string) : Exception := mkException "IndexError" msg.
Definition AttributeError (msg : string) : Exception :=
  mkException "AttributeError" msg.
(** [str(KeyError(k))] is the [repr] of the key. *)
Definition KeyError (key : string) : Exception :=
  mkException "KeyError" ("'" ++ key ++ "'").

(** The result of evaluating an expression: a value or a raised exception. *)
Inductive Result (A : Type) :=
| Ok (a : A)
| Err (e : Exception).
Arguments Ok {A} a.
Arguments Err {A} e.

Definition rbind {A B} (r : Result A) (k : A -> Result B) : Result B :=
  match r with
  | Ok a => k a
  | Err e => Err e
  end.

Fixpoint rmap {A B} (f : A -> Result B) (l : list A) : Result (list B) :=
  match l with
  | [] => Ok []
  | a :: l' =>
      rbind (f a) (fun b => rbind (rmap f l') (fun bs => Ok (b :: bs)))
  end.

(** Binary64 comparisons as Python writes them. *)
Module F64.

Definition lt (x y : float) : bool := PrimFloat.ltb x y.
Definition le (x y : float) : bool := PrimFloat.leb x y.
Definition gt (x y : float) : bool := PrimFloat.ltb y x.
Definition eq (x y : float) : bool := PrimFloat.eqb x y.

(** Exact order between a float and an integer, as Python compares an
    [int] with a [float]: [None] for NaN. *)
Definition cmp_Z (x : float) (n : Z) : option comparison :=
  match Prim2SF x with
  | S754_nan => None
  | S754_infinity s => Some (if s then Lt else Gt)
  | S754_zero _ => Some (0 ?= n)
  | S754_finite s m e =>
      let v := if s then Z.neg m else Z.pos m in
      Some (if 0 <=? e then (v * 2 ^ e ?= n) else (v ?= n * 2 ^ (- e)))
  end.

End F64.

Definition type_name (v : Scalar) : string :=
  match v with
  | Int _ => "int"
  | Float _ => "float"
  | Str _ => "str"
  | NoneV => "NoneType"
  end.

(** [a == b] *)
Definition py_eq (a b : Scalar) : bool :=
  match a, b with
  | Int x, Int y => x =? y
  | Float x, Float y => F64.eq x y
  | Float x, Int y =>
      match F64.cmp_Z x y with Some Eq => true | _ => false end
  | Int x, Float y =>
      match F64.cmp_Z y x with Some Eq => true | _ => false end
  | Str x, Str y => String.eqb x y
  | NoneV, NoneV => true
  | _, _ => false
  end.

(** [a != b] *)
Definition py_ne (a b : Scalar) : bool := negb (py_eq a b).

(** [a < b]; numbers and strings do not compare. *)
Definition py_lt (a b : Scalar) : Result bool :=
  match a, b with
  | Int x, Int y => Ok (x <? y)
  | Float x, Float y => Ok (F64.lt x y)
  | Float x, Int y =>
      Ok match F64.cmp_Z x y with Some Lt => true | _ => false end
  | Int x, Float y =>
      Ok match F64.cmp_Z y x with Some Gt => true | _ => false end
  | Str x, Str y => Ok (String.ltb x y)
  | _, _ =>
      Err (TypeError ("'<' not supported between instances of '"
                      ++ type_name a ++ "' and '" ++ type_name b ++ "'"))
  end.

(** [str(n)] for an [int]. *)
Definition decimal (n : Z) : string := NilZero.string_of_int (Z.to_int n).

(** [n] zeros. *)
Fixpoint zeros (n : nat) : string :=
  match n with
  | O => ""
  | S n' => "0" ++ zeros n'
  end.

(** ["%f" % x]: six digits after the point, the exact value rounded half
    to even; [nan] and [inf] by name. *)
Definition format_f (x : float) : string :=
  match Prim2SF x with
  | S754_nan => "nan"
  | S754_infinity s => if s then "-inf" else "inf"
  | S754_zero s => (if s then "-" else "") ++ "0.000000"
  | S754_finite s m e =>
      let num := if 0 <=? e then Z.pos m * 10 ^ 6 * 2 ^ e
                 else Z.pos m * 10 ^ 6 in
      let den := if 0 <=? e then 1 else 2 ^ (- e) in
      let q := num / den in
      let r := num mod den in
      let q' := if 2 * r <? den then q
                else if den <? 2 * r then q + 1
                else if Z.even q then q else q + 1 in
      let frac := decimal (q' mod 10 ^ 6) in
      (if s then "-" else "") ++ decimal (q' / 10 ^ 6) ++ "."
      ++ zeros (6 - String.length frac) ++ frac
  end.

Module math.

(** [math.isclose(a, b, rel_tol=..., abs_tol=...)] *)
Definition isclose (a b rel_tol abs_tol : float) : bool :=
  if F64.eq a b then true
  else if PrimFloat.is_infinity a || PrimFloat.is_infinity b then false
  else
    let diff := PrimFloat.abs (b - a)%float in
    F64.le diff (PrimFloat.abs (rel_tol * b)%float)
    || F64.le diff (PrimFloat.abs (rel_tol * a)%float)
    || F64.le diff abs_tol.

End math.

(** A [dict] literal with string keys, in insertion order. *)
Definition dict := list (string * Scalar).

(** ** numpy arrays and pandas frames *)

Module np.

(** [arr[i]] along [axis], for an index that is not negative. *)
Definition getitem {A} (axis : Z) (arr : list A) (i : nat) : Result A :=
  match nth_error arr i with
  | Some v => Ok v
  | None =>
      Err (IndexError ("index " ++ decimal (Z.of_nat i)
                       ++ " is out of bounds for axis " ++ decimal axis
                       ++ " with size "
                       ++ decimal (Z.of_nat (List.length arr))))
  end.

(** [arr[i, j]] on a two-dimensional array. *)
Definition getitem2 {A} (arr : list (list A)) (i j : nat) : Result A :=
  rbind (getitem 0 arr i) (fun row => getitem 1 row j).

End np.

Module pd.

Definition Series := list Scalar.

(** A frame is its columns in order, each a series of one length. *)
Definition DataFrame := list (string * Series).

(** [pd.DataFrame([data])]: one row, a column per key of [data]. *)
Definition DataFrame_of_row (data : dict) : DataFrame :=
  map (fun kv => (fst kv, [snd kv])) data.

(** [df[name]] *)
Fixpoint getitem (df : DataFrame) (name : string) : Result Series :=
  match df with
  | [] => Err (KeyError name)
  | (k, s) :: df' => if String.eqb k name then Ok s else getitem df' name
  end.

(** [df[name] = s]: replaces the column in place, or appends a new one. *)
Fixpoint setitem (df : DataFrame) (name : string) (s : Series) : DataFrame :=
  match df with
  | [] => [(name, s)]
  | (k, s') :: df' =>
      if String.eqb k name then (k, s) :: df'
      else (k, s') :: setitem df' name s
  end.

Definition columns (df : DataFrame) : list string := map fst df.

(** [s != v] and [s == v], element by element: a boolean mask. *)
Definition ne (s : Series) (v : Scalar) : list bool :=
  map (fun x => py_ne x v) s.
Definition eq (s : Series) (v : Scalar) : list bool :=
  map (fun x => py_eq x v) s.

(** [mask.astype(int)] *)
Definition astype_int (mask : list bool) : Series :=
  map (fun b : bool => Int (if b then 1 else 0)) mask.

(** [s.apply(f)] *)
Definition apply (s : Series) (f : Scalar -> Result Scalar) : Result Series :=
  rmap f s.

(** [s.values[i]] *)
Definition values_at (s : Series) (i : nat) : Result Scalar :=
  np.getitem 0 s i.

End pd.

(** ** Streamlit: one run of the script *)

Inductive Container := Main | Sidebar | Column (i : nat).

(** An f-string kept as its pieces: literal text and interpolated values
    with their format specification ([""] when there is none). *)
Inductive Part :=
| Lit (s : string)
| Fmt (v : Scalar) (spec : string).

Definition Text := list Part.

Inductive Element :=
| PageConfig (page_title page_icon layout : string)
| Title (body : Text)
| Header (body : Text)
| Subheader (body : Text)
| Markdown (body : Text) (unsafe_allow_html : bool)
| ErrorBox (body : Text)
| InfoBox (body : Text)
| SuccessBox (body : Text)
| WarningBox (body : Text)
| Balloons
| Metric (label : string) (value : Text)
| Progress (value : float)
| Slider (label : string) (min_value max_value : Z) (value : Scalar)
| Selectbox (label : string) (options : list string) (value : Scalar)
| NumberInput (label : string) (min_value max_value : Scalar)
    (step : option Scalar) (value : Scalar)
| Button (label : string)
| Columns (spec : list Z).

(** The deserialised pipeline: its two scoring methods, each of which
    returns an array or raises. *)
Record Model := mkModel {
  predict : pd.DataFrame -> Result (list Scalar);
  predict_proba : pd.DataFrame -> Result (list (list float))
}.

Inductive Call :=
| PredictCall (df : pd.DataFrame)
| PredictProbaCall (df : pd.DataFrame).

(** What a run of the script reads from outside: the file system (whether
    a path exists, and what deserialising the file at a path gives: the
    pipeline or an exception), what the browser holds for each widget (by
    label; nothing before the user touches it) and which button triggered
    the run. *)
Record World := mkWorld {
  path_exists : string -> bool;
  joblib_load : string -> Result Model;
  widget_state : string -> option Scalar;
  button_clicked : string -> bool
}.

(** The state a run threads: the process-wide resource cache, the
    container that [st.*] calls draw into, the page drawn so far and the
    invocations of the model so far. *)
Record Proc := mkProc {
  resource_cache : option (option Model * list Element);
  container : Container;
  page : list (Container * Element);
  calls : list Call
}.

Inductive Outcome (A : Type) :=
| Return (a : A)
| Raise (e : Exception)
| Stop.
Arguments Return {A} a.
Arguments Raise {A} e.
Arguments Stop {A}.

Definition St (A : Type) : Type := World -> Proc -> Outcome A * Proc.

Definition ret {A} (a : A) : St A := fun _ p => (Return a, p).

Definition bind {A B} (c : St A) (k : A -> St B) : St B :=
  fun w p =>
    match c w p with
    | (Return a, p') => k a w p'
    | (Raise e, p') => (Raise e, p')
    | (Stop, p') => (Stop, p')
    end.

Declare Scope st_scope.
Delimit Scope st_scope with st.
Notation "x <- c ;; k" := (bind c (fun x => k))
  (at level 100, c at next level, right associativity) : st_scope.
Notation "c ;; k" := (bind c (fun _ => k))
  (at level 100, right associativity) : st_scope.
Local Open Scope st_scope.

(** An expression that may raise, evaluated inside the script. *)
Definition eval {A} (r : Result A) : St A :=
  fun _ p =>
    match r with
    | Ok a => (Return a, p)
    | Err e => (Raise e, p)
    end.

(** [try: body except Exception as e: handler(e)]. What the body drew
    before raising stays drawn; the stop signal is no [Exception]. *)
Definition try_except {A} (body : St A) (handler : Exception -> St A) : St A :=
  fun w p =>
    match body w p with
    | (Raise e, p') => handler e w p'
    | other => other
    end.

Definition draw_in (c : Container) (e : Element) : St unit :=
  fun _ p =>
    (Return tt,
     mkProc (resource_cache p) (container p) (page p ++ [(c, e)]) (calls p)).

Definition draw (e : Element) : St unit :=
  fun w p => draw_in (container p) e w p.

(** [with c: body] *)
Definition with_ {A} (c : Container) (body : St A) : St A :=
  fun w p =>
    let (o, p') :=
      body w (mkProc (resource_cache p) c (page p) (calls p)) in
    (o, mkProc (resource_cache p') (container p) (page p') (calls p')).

(** The value of a widget in this run. *)
Definition widget_value (label : string) (default : Scalar) : St Scalar :=
  fun w p =>
    (Return match widget_state w label with
            | Some v => v
            | None => default
            end, p).

Definition plain (s : string) : Text := [Lit s].

Module st.

(** [st.set_page_config(page_title=..., page_icon=..., layout=...)]: the
    settings of the page, sent ahead of its elements. *)
Definition set_page_config (page_title page_icon layout : string) : St unit :=
  draw (PageConfig page_title page_icon layout).

Definition title (body : string) : St unit := draw (Title (plain body)).
Definition subheader (body : string) : St unit :=
  draw (Subheader (plain body)).
Definition markdown (body : Text) : St unit := draw (Markdown body false).
Definition markdown_html (body : Text) : St unit := draw (Markdown body true).
Definition error (body : Text) : St unit := draw (ErrorBox body).
Definition info (body : Text) : St unit := draw (InfoBox body).
Definition success (body : Text) : St unit := draw (SuccessBox body).
Definition warning (body : Text) : St unit := draw (WarningBox body).
Definition balloons : St unit := draw Balloons.
Definition metric (label : string) (value : Text) : St unit :=
  draw (Metric label value).

(** The range check of [st.progress] on a float: between the bounds, or
    close to one of them. *)
Definition check_float_between (value low high : float) : bool :=
  (F64.le low value && F64.le value high)
  || math.isclose value low 1e-9%float 1e-9%float
  || math.isclose value high 1e-9%float 1e-9%float.

(** [st.progress(value)] for a float. *)
Definition progress (value : float) : St unit :=
  if check_float_between value 0.0%float 1.0%float then
    draw (Progress value)
  else
    eval (Err (mkException "StreamlitAPIException"
                 ("Progress Value has invalid value [0.0, 1.0]: "
                  ++ format_f value))).

(** [st.columns(spec)]: draws the row and returns its containers. *)
Definition columns (spec : list Z) : St (Container * Container) :=
  draw (Columns spec);; ret (Column 0, Column 1).

(** [st.button(label)]: true in the run its click triggered. *)
Definition button (label : string) : St bool :=
  draw (Button label);;
  fun w p => (Return (button_clicked w label), p).

(** [with st.spinner(text): body]: the spinner shows while the body runs
    and is gone when the block is left, whatever the outcome. *)
Definition spinner {A} (text : string) (body : St A) : St A := body.

(** [st.stop()]: ends the run; nothing after it executes. *)
Definition stop : St unit := fun _ p => (Stop, p).

(** [@st.cache_resource] on a function without arguments. A hit returns
    the stored value and replays the elements the function drew; a miss
    runs the function and stores its value with what it drew. A call that
    raises stores nothing. *)
Definition cache_resource (f : St (option Model)) : St (option Model) :=
  fun w p =>
    match resource_cache p with
    | Some (v, drawn) =>
        (Return v,
         mkProc (resource_cache p) (container p)
           (page p ++ map (pair (container p)) drawn) (calls p))
    | None =>
        match f w (mkProc None (container p) [] (calls p)) with
        | (Return v, p') =>
            (Return v,
             mkProc (Some (v, map snd (page p'))) (container p)
               (page p ++ page p') (calls p'))
        | (o, p') =>
            (o, mkProc (resource_cache p') (container p)
                  (page p ++ page p') (calls p'))
        end
    end.

Module sidebar.

Definition header (body : string) : St unit :=
  draw_in Sidebar (Header (plain body)).
Definition subheader (body : string) : St unit :=
  draw_in Sidebar (Subheader (plain body)).

Definition slider (label : string) (min_value max_value value : Z)
  : St Scalar :=
  v <- widget_value label (Int value);;
  draw_in Sidebar (Slider label min_value max_value v);;
  ret v.

(** The first option is selected until the user picks another. *)
Definition selectbox (label : string) (options : list string) : St Scalar :=
  v <- widget_value label
         match options with
         | [] => NoneV
         | o :: _ => Str o
         end;;
  draw_in Sidebar (Selectbox label options v);;
  ret v.

Definition number_input (label : string) (min_value max_value value : Z)
  : St Scalar :=
  v <- widget_value label (Int value);;
  draw_in Sidebar
    (NumberInput label (Int min_value) (Int max_value) None v);;
  ret v.

Definition number_input_float (label : string)
  (min_value max_value value step : float) : St Scalar :=
  v <- widget_value label (Float value);;
  draw_in Sidebar
    (NumberInput label (Float min_value) (Float max_value)
       (Some (Float step)) v);;
  ret v.

End sidebar.

End st.

Module os.
Module path.

(** [os.path.exists(path)] *)
Definition exists_ (path : string) : St bool :=
  fun w p => (Return (path_exists w path), p).

End path.
End os.

Module joblib.

(** [joblib.load(path)] *)
Definition load (path : string) : St Model :=
  fun w p => eval (joblib_load w path) w p.

End joblib.

(** [model.predict(df)] and [model.predict_proba(df)] on a variable that
    may hold [None]. *)
Definition invoke_predict (model : option Model) (df : pd.DataFrame)
  : St (list Scalar) :=
  match model with
  | None =>
      eval (Err (AttributeError
                   "'NoneType' object has no attribute 'predict'"))
  | Some m =>
      fun w p =>
        eval (predict m df) w
          (mkProc (resource_cache p) (container p) (page p)
             (calls p ++ [PredictCall df]))
  end.

Definition invoke_predict_proba (model : option Model) (df : pd.DataFrame)
  : St (list (list float)) :=
  match model with
  | None =>
      eval (Err (AttributeError
                   "'NoneType' object has no attribute 'predict_proba'"))
  | Some m =>
      fun w p =>
        eval (predict_proba m df) w
          (mkProc (resource_cache p) (container p) (page p)
             (calls p ++ [PredictProbaCall df]))
  end.

(** ** The script *)

Definition MODEL_PATH : string := "final_bank_marketing_model.joblib".

(** The body of [load_model] (lines 36-46). *)
Definition load_model_body : St (option Model) :=
  found <- os.path.exists_ MODEL_PATH;;
  if negb found then
    st.error [Lit " Model file not found: "; Lit MODEL_PATH];;
    st.info (plain "Please run the Jupyter notebook first to train and save the model.");;
    ret None
  else
    try_except
      (model <- joblib.load MODEL_PATH;;
       ret (Some model))
      (fun e =>
         st.error [Lit "Error loading model: "; Lit (str e)];;
         ret None).

(** [load_model] as the script sees it, under [@st.cache_resource]
    (line 33). *)
Definition load_model : St (option Model) :=
  st.cache_resource load_model_body.

(** The nineteen locals that [get_user_input] binds to widget values. *)
Record RawFields := mkRawFields {
  age : Scalar;
  job : Scalar;
  marital : Scalar;
  education : Scalar;
  default : Scalar;
  housing : Scalar;
  loan : Scalar;
  contact : Scalar;
  month : Scalar;
  day_of_week : Scalar;
  campaign : Scalar;
  pdays : Scalar;
  previous : Scalar;
  poutcome : Scalar;
  emp_var_rate : Scalar;
  cons_price_idx : Scalar;
  cons_conf_idx : Scalar;
  euribor3m : Scalar;
  nr_employed : Scalar
}.

(** The sidebar form (lines 50-98). *)
Definition sidebar_form : St RawFields :=
  st.sidebar.header " Client Information";;
  st.sidebar.subheader "Personal Details";;
  age <- st.sidebar.slider "Age" 18 95 35;;
  job <- st.sidebar.selectbox "Job"
           ["admin."; "blue-collar"; "entrepreneur"; "housemaid";
            "management"; "retired"; "self-employed"; "services";
            "student"; "technician"; "unemployed"; "unknown"];;
  marital <- st.sidebar.selectbox "Marital Status"
               ["married"; "single"; "divorced"; "unknown"];;
  education <- st.sidebar.selectbox "Education"
                 ["basic.4y"; "basic.6y"; "basic.9y"; "high.school";
                  "illiterate"; "professional.course"; "university.degree";
                  "unknown"];;
  st.sidebar.subheader "Financial Status";;
  default <- st.sidebar.selectbox "Credit in Default?" ["no"; "yes"; "unknown"];;
  housing <- st.sidebar.selectbox "Housing Loan?" ["no"; "yes"; "unknown"];;
  loan <- st.sidebar.selectbox "Personal Loan?" ["no"; "yes"; "unknown"];;
  st.sidebar.subheader "Campaign Details";;
  contact <- st.sidebar.selectbox "Contact Type" ["cellular"; "telephone"];;
  month <- st.sidebar.selectbox "Last Contact Month"
             ["jan"; "feb"; "mar"; "apr"; "may"; "jun";
              "jul"; "aug"; "sep"; "oct"; "nov"; "dec"];;
  day_of_week <- st.sidebar.selectbox "Last Contact Day"
                   ["mon"; "tue"; "wed"; "thu"; "fri"];;
  campaign <- st.sidebar.number_input "Contacts in Current Campaign" 1 50 2;;
  pdays <- st.sidebar.number_input "Days Since Last Contact (999 if never)"
             0 999 999;;
  previous <- st.sidebar.number_input "Previous Contacts" 0 10 0;;
  poutcome <- st.sidebar.selectbox "Previous Campaign Outcome"
                ["nonexistent"; "failure"; "success"];;
  st.sidebar.subheader "Economic Indicators";;
  emp_var_rate <- st.sidebar.number_input_float "Employment Variation Rate"
                    (-5.0)%float 5.0%float 1.1%float 0.1%float;;
  cons_price_idx <- st.sidebar.number_input_float "Consumer Price Index"
                      90.0%float 100.0%float 93.994%float 0.001%float;;
  cons_conf_idx <- st.sidebar.number_input_float "Consumer Confidence Index"
                     (-60.0)%float 0.0%float (-36.4)%float 0.1%float;;
  euribor3m <- st.sidebar.number_input_float "Euribor 3 Month Rate"
                 0.0%float 10.0%float 4.857%float 0.001%float;;
  nr_employed <- st.sidebar.number_input_float "Number of Employees"
                   4900.0%float 5300.0%float 5191.0%float 0.1%float;;
  ret (mkRawFields age job marital education default housing loan contact
         month day_of_week campaign pdays previous poutcome emp_var_rate
         cons_price_idx cons_conf_idx euribor3m nr_employed).

(** The feature dictionary (lines 101-121). *)
Definition feature_dict (r : RawFields) : dict :=
  [("age", age r);
   ("job", job r);
   ("marital", marital r);
   ("education", education r);
   ("default", default r);
   ("housing", housing r);
   ("loan", loan r);
   ("contact", contact r);
   ("month", month r);
   ("day_of_week", day_of_week r);
   ("campaign", campaign r);
   ("pdays", pdays r);
   ("previous", previous r);
   ("poutcome", poutcome r);
   ("emp.var.rate", emp_var_rate r);
   ("cons.price.idx", cons_price_idx r);
   ("cons.conf.idx", cons_conf_idx r);
   ("euribor3m", euribor3m r);
   ("nr.employed", nr_employed r)].

(** [lambda x: 1 if x < 5 else 0] (line 129) *)
Definition low_contact (x : Scalar) : Result Scalar :=
  rbind (py_lt x (Int 5)) (fun b : bool => Ok (Int (if b then 1 else 0))).

(** The three engineered columns (lines 127-131), added to the frame in
    this order. *)
Definition engineer (input_df : pd.DataFrame) : Result pd.DataFrame :=
  rbind (pd.getitem input_df "pdays") (fun s =>
  let input_df :=
    pd.setitem input_df "was_previously_contacted"
      (pd.astype_int (pd.ne s (Int 999))) in
  rbind (pd.getitem input_df "campaign") (fun s =>
  rbind (pd.apply s low_contact) (fun s' =>
  let input_df := pd.setitem input_df "campaign_successful" s' in
  rbind (pd.getitem input_df "poutcome") (fun s =>
  let input_df :=
    pd.setitem input_df "poutcome_success"
      (pd.astype_int (pd.eq s (Str "success"))) in
  Ok input_df)))).

(** From the locals to the returned frame (lines 101-133). *)
Definition build (r : RawFields) : Result pd.DataFrame :=
  engineer (pd.DataFrame_of_row (feature_dict r)).

Definition get_user_input : St pd.DataFrame :=
  r <- sidebar_form;;
  eval (build r).

(** The bounds the widgets of the form enforce on what they return. *)
Definition int_between (lo hi : Z) (v : Scalar) : bool :=
  match v with
  | Int n => (lo <=? n) && (n <=? hi)
  | _ => false
  end.

Definition float_between (lo hi : float) (v : Scalar) : bool :=
  match v with
  | Float x => F64.le lo x && F64.le x hi
  | _ => false
  end.

Definition one_of (options : list string) (v : Scalar) : bool :=
  match v with
  | Str s => existsb (String.eqb s) options
  | _ => false
  end.

Definition within_bounds (r : RawFields) : bool :=
  int_between 18 95 (age r)
  && one_of ["admin."; "blue-collar"; "entrepreneur"; "housemaid";
             "management"; "retired"; "self-employed"; "services";
             "student"; "technician"; "unemployed"; "unknown"] (job r)
  && one_of ["married"; "single"; "divorced"; "unknown"] (marital r)
  && one_of ["basic.4y"; "basic.6y"; "basic.9y"; "high.school";
             "illiterate"; "professional.course"; "university.degree";
             "unknown"] (education r)
  && one_of ["no"; "yes"; "unknown"] (default r)
  && one_of ["no"; "yes"; "unknown"] (housing r)
  && one_of ["no"; "yes"; "unknown"] (loan r)
  && one_of ["cellular"; "telephone"] (contact r)
  && one_of ["jan"; "feb"; "mar"; "apr"; "may"; "jun";
             "jul"; "aug"; "sep"; "oct"; "nov"; "dec"] (month r)
  && one_of ["mon"; "tue"; "wed"; "thu"; "fri"] (day_of_week r)
  && int_between 1 50 (campaign r)
  && int_between 0 999 (pdays r)
  && int_between 0 10 (previous r)
  && one_of ["nonexistent"; "failure"; "success"] (poutcome r)
  && float_between (-5.0)%float 5.0%float (emp_var_rate r)
  && float_between 90.0%float 100.0%float (cons_price_idx r)
  && float_between (-60.0)%float 0.0%float (cons_conf_idx r)
  && float_between 0.0%float 10.0%float (euribor3m r)
  && float_between 4900.0%float 5300.0%float (nr_employed r).
(** The line feed of the multi-line literals. *)
Definition nl : string := String (ascii_of_nat 10) EmptyString.

(** The literal of line 205. *)
Definition HIGH_PRIORITY : string :=
  String.concat nl
    ["";
     "                    **HIGH PRIORITY CLIENT**";
     "                    - Immediate follow-up recommended";
     "                    - Offer premium term deposit rates";
     "                    - Assign to senior sales representative";
     "                    "].

(** The literal of line 212. *)
Definition MEDIUM_PRIORITY : string :=
  String.concat nl
    ["";
     "                    **MEDIUM PRIORITY CLIENT**";
     "                    - Standard marketing protocol";
     "                    - Consider personalized offers";
     "                    - Monitor engagement";
     "                    "].

(** The literal of line 219. *)
Definition LOW_PRIORITY : string :=
  String.concat nl
    ["";
     "                    **LOW PRIORITY CLIENT**";
     "                    - Reduce contact frequency";
     "                    - Focus on relationship building";
     "                    - Consider alternative products";
     "                    "].

(** The literal of line 232. *)
Definition FOOTER : string :=
  String.concat nl
    ["";
     "    <div style='text-align: center; color: gray;'>";
     "        <p>Bank Marketing Prediction System | ADA 442 Statistical Learning Project </p>";
     "                <p> made by Ecem Nur Bilgi and İpek Özdemir  </p>";
     "        </div>";
     "    "].

(** The style sheet of lines 15-28. *)
Definition CSS : string :=
  String.concat nl
    ["";
     "    <style>";
     "    .main {padding: 2rem;}";
     "    .stButton>button {";
     "        width: 100%;";
     "        background-color: #2ecc71;";
     "        color: white;";
     "        font-weight: bold;";
     "        padding: 0.5rem;";
     "        border-radius: 10px;";
     "    }";
     "    .stButton>button:hover {background-color: #27ae60;}";
     "    </style>";
     ""].

(** The f-string of lines 156-172; each [input_df[c].values[0]] is
    evaluated in the order of its appearance. *)
Definition profile_summary (input_df : pd.DataFrame) : Result Text :=
  rbind (rbind (pd.getitem input_df "age") (fun s => pd.values_at s 0))
    (fun v_age =>
  rbind (rbind (pd.getitem input_df "job") (fun s => pd.values_at s 0))
    (fun v_job =>
  rbind (rbind (pd.getitem input_df "education") (fun s => pd.values_at s 0))
    (fun v_education =>
  rbind (rbind (pd.getitem input_df "marital") (fun s => pd.values_at s 0))
    (fun v_marital =>
  rbind (rbind (pd.getitem input_df "housing") (fun s => pd.values_at s 0))
    (fun v_housing =>
  rbind (rbind (pd.getitem input_df "loan") (fun s => pd.values_at s 0))
    (fun v_loan =>
  rbind (rbind (pd.getitem input_df "default") (fun s => pd.values_at s 0))
    (fun v_default =>
  rbind (rbind (pd.getitem input_df "campaign") (fun s => pd.values_at s 0))
    (fun v_campaign =>
  rbind (rbind (pd.getitem input_df "previous") (fun s => pd.values_at s 0))
    (fun v_previous =>
  rbind (rbind (pd.getitem input_df "poutcome") (fun s => pd.values_at s 0))
    (fun v_poutcome =>
  Ok [Lit (String.concat nl
       ["";
        "        **Personal Information:**";
        "        - Age: "]);
      Fmt v_age "";
      Lit (String.concat nl
       [" years";
        "        - Job: "]);
      Fmt v_job "";
      Lit (String.concat nl
       ["";
        "        - Education: "]);
      Fmt v_education "";
      Lit (String.concat nl
       ["";
        "        - Marital Status: "]);
      Fmt v_marital "";
      Lit (String.concat nl
       ["";
        "        ";
        "        **Financial Status:**";
        "        - Housing Loan: "]);
      Fmt v_housing "";
      Lit (String.concat nl
       ["";
        "        - Personal Loan: "]);
      Fmt v_loan "";
      Lit (String.concat nl
       ["";
        "        - Credit Default: "]);
      Fmt v_default "";
      Lit (String.concat nl
       ["";
        "        ";
        "        **Campaign History:**";
        "        - Contacts this campaign: "]);
      Fmt v_campaign "";
      Lit (String.concat nl
       ["";
        "        - Previous contacts: "]);
      Fmt v_previous "";
      Lit (String.concat nl
       ["";
        "        - Last outcome: "]);
      Fmt v_poutcome "";
      Lit (String.concat nl
       ["";
        "        "])])))))))))).

(** The recommendation (lines 204-224). *)
Definition recommend (probability : float) : St unit :=
  if F64.gt probability 0.7%float then
    st.success (plain HIGH_PRIORITY)
  else if F64.gt probability 0.4%float then
    st.warning (plain MEDIUM_PRIORITY)
  else
    st.info (plain LOW_PRIORITY).

(** The band the two tests of [recommend] select, and the box each branch
    draws. *)
Inductive Tier := HIGH | MEDIUM | LOW.

Definition tier (probability : float) : Tier :=
  if F64.gt probability 0.7%float then HIGH
  else if F64.gt probability 0.4%float then MEDIUM
  else LOW.

Definition recommendation (t : Tier) : Element :=
  match t with
  | HIGH => SuccessBox (plain HIGH_PRIORITY)
  | MEDIUM => WarningBox (plain MEDIUM_PRIORITY)
  | LOW => InfoBox (plain LOW_PRIORITY)
  end.

Definition is_None {A} (x : option A) : bool :=
  match x with
  | None => true
  | Some _ => false
  end.

(** What the [try] block does once the button is pressed (lines 182-224). *)
Definition predict_and_show (model : option Model) (input_df : pd.DataFrame)
  : St unit :=
  scored <- st.spinner "Analyzing client profile..."
              (arr <- invoke_predict model input_df;;
               prediction <- eval (np.getitem 0 arr 0);;
               arr2 <- invoke_predict_proba model input_df;;
               probability <- eval (np.getitem2 arr2 0 1);;
               ret (prediction, probability));;
  let prediction := fst scored in
  let probability := snd scored in
  (if py_eq prediction (Int 1) then
     st.success (plain "### ✅ LIKELY TO SUBSCRIBE");;
     st.balloons
   else
     st.error (plain "### ❌ UNLIKELY TO SUBSCRIBE"));;
  st.metric "Subscription Probability" [Fmt (Float probability) ".1%"];;
  st.progress probability;;
  st.markdown (plain "---");;
  st.subheader "💡 Recommendation";;
  recommend probability.

(** The handler of lines 226-228. *)
Definition on_prediction_error (e : Exception) : St unit :=
  st.error [Lit "Prediction error: "; Lit (str e)];;
  st.info (plain "Please check that all required features are provided.").

Definition main : St unit :=
  st.title "🏦 Bank Term Deposit Subscription Predictor";;
  st.markdown (plain "---");;
  model <- load_model;;
  (if is_None model then st.stop else ret tt);;
  input_df <- get_user_input;;
  cols <- st.columns [1; 1];;
  let col1 := fst cols in
  let col2 := snd cols in
  with_ col1
    (st.subheader "📊 Client Profile Summary";;
     summary <- eval (profile_summary input_df);;
     st.markdown summary);;
  with_ col2
    (st.subheader "🎯 Prediction";;
     clicked <- st.button "🔮 Predict Subscription";;
     if clicked : bool then
       try_except (predict_and_show model input_df) on_prediction_error
     else ret tt);;
  st.markdown (plain "---");;
  st.markdown_html (plain FOOTER).

(** The module, top to bottom: the page settings and the style sheet
    (lines 8-28), then the call of [main] (line 240). *)
Definition script : St unit :=
  st.set_page_config "Bank Marketing Predictor" "💰" "wide";;
  st.markdown_html (plain CSS);;
  main.

(** A run of the script in a process whose resource cache holds [cache]:
    the page starts empty and drawing starts in the main container. *)
Definition run (w : World) (cache : option (option Model * list Element))
  : Outcome unit * Proc :=
  script w (mkProc cache Main [] []).

(** A world without the artifact, showing the untouched form. *)
Definition no_artifact : World :=
  mkWorld (fun _ => false)
    (fun _ => Err (mkException "FileNotFoundError" "No such file"))
    (fun _ => None) (fun _ => false).

(** ** Vocabulary of the properties *)

(** A probability: a binary64 number between 0.0 and 1.0. *)
Definition in_unit_interval (p : float) : bool :=
  F64.le 0%float p && F64.le p 1%float.

(** The bands as the specification words them: above 0.7, above 0.4 up to
    0.7, up to 0.4; to be compared with [tier]. *)
Definition spec_band (t : Tier) (p : float) : bool :=
  match t with
  | HIGH => F64.gt p 0.7%float
  | MEDIUM => F64.lt 0.4%float p && F64.le p 0.7%float
  | LOW => F64.le p 0.4%float
  end.

(** The three engineered columns of a frame. *)
Definition derived_features (df : pd.DataFrame)
  : Result pd.Series * Result pd.Series * Result pd.Series :=
  (pd.getitem df "was_previously_contacted",
   pd.getitem df "campaign_successful",
   pd.getitem df "poutcome_success").

(** [p] after [els] were drawn into the current container. *)
Definition drawn (p : Proc) (els : list Element) : Proc :=
  mkProc (resource_cache p) (container p)
    (page p ++ map (pair (container p)) els) (calls p).

(** The form as it first shows, before the user touches a widget. *)
Definition form_defaults : RawFields :=
  mkRawFields (Int 35) (Str "admin.") (Str "married") (Str "basic.4y")
    (Str "no") (Str "no") (Str "no") (Str "cellular") (Str "jan")
    (Str "mon") (Int 2) (Int 999) (Int 0) (Str "nonexistent")
    (Float 1.1%float) (Float 93.994%float) (Float (-36.4)%float)
    (Float 4.857%float) (Float 5191.0%float).

Definition with_contact_history (r : RawFields)
  (campaign_ pdays_ : Z) (poutcome_ : string) : RawFields :=
  mkRawFields (age r) (job r) (marital r) (education r) (default r)
    (housing r) (loan r) (contact r) (month r) (day_of_week r)
    (Int campaign_) (Int pdays_) (previous r) (Str poutcome_)
    (emp_var_rate r) (cons_price_idx r) (cons_conf_idx r) (euribor3m r)
    (nr_employed r).

(** Scenario A: never contacted before, second contact of this campaign. *)
Definition scenario_A : RawFields :=
  with_contact_history form_defaults 2 999 "nonexistent".

(** Scenario B: contacted five days ago with success, seventh contact. *)
Definition scenario_B : RawFields :=
  with_contact_history form_defaults 7 5 "success".

(** The frame of a record, empty when [build] raises. *)
Definition frame_of (r : RawFields) : pd.DataFrame :=
  match build r with
  | Ok df => df
  | Err _ => []
  end.

(** The engineered column names, in the order they are added. *)
Definition engineered_columns : list string :=
  ["was_previously_contacted"; "campaign_successful"; "poutcome_success"].

(** The same file system and form with another account of which button
    was clicked, and with none clicked. *)
Definition with_button (w : World) (clicked : string -> bool) : World :=
  mkWorld (path_exists w) (joblib_load w) (widget_state w) clicked.

Definition idle (w : World) : World := with_button w (fun _ => false).

(** A process that has drawn nothing yet. *)
Definition fresh (cache : option (option Model * list Element)) : Proc :=
  mkProc cache Main [] [].

(** What [load_model] returns, draws and leaves in the cache, as functions
    of the world and of the cache it finds. *)
Definition load_result (w : World)
  (cache : option (option Model * list Element)) : Outcome (option Model) :=
  fst (load_model w (fresh cache)).

Definition load_notices (w : World)
  (cache : option (option Model * list Element)) : list Element :=
  map snd (page (snd (load_model w (fresh cache)))).

Definition cache_after (w : World)
  (cache : option (option Model * list Element))
  : option (option Model * list Element) :=
  resource_cache (snd (load_model w (fresh cache))).

(** What the form returns and draws, as functions of the world. *)
Definition form_fields (w : World) : RawFields :=
  match fst (sidebar_form w (fresh None)) with
  | Return r => r
  | _ => form_defaults
  end.

Definition form_page (w : World) : list (Container * Element) :=
  page (snd (sidebar_form w (fresh None))).

(** The frame [get_user_input] returns in a world. *)
Definition input_frame (w : World) : Result pd.DataFrame :=
  build (form_fields w).

(** A widget element that shows a value within its own bounds or among
    its own options. *)
Definition widget_ok (e : Element) : bool :=
  match e with
  | Slider _ lo hi v => int_between lo hi v
  | Selectbox _ options v => one_of options v
  | NumberInput _ (Int lo) (Int hi) _ v => int_between lo hi v
  | NumberInput _ (Float lo) (Float hi) _ v => float_between lo hi v
  | NumberInput _ _ _ _ _ => false
  | _ => true
  end.

(** The boxes that carry a message. *)
Definition is_notice (e : Element) : bool :=
  match e with
  | ErrorBox _ | InfoBox _ => true
  | _ => false
  end.

Definition is_button (e : Element) : bool :=
  match e with
  | Button _ => true
  | _ => false
  end.

(** The caches a process can hold: the empty one it starts with and what
    any run leaves behind. *)
Inductive reachable : option (option Model * list Element) -> Prop :=
| reachable_start : reachable None
| reachable_run (w : World) (cache : option (option Model * list Element)) :
    reachable cache -> reachable (resource_cache (snd (run w cache))).

Definition cache_ok (cache : option (option Model * list Element)) : Prop :=
  match cache with
  | None => True
  | Some (_, els) => forallb is_notice els = true
  end.

(** A computation that leaves the resource cache as it found it. *)
Definition keeps_cache {A} (c : St A) : Prop :=
  forall w p, resource_cache (snd (c w p)) = resource_cache p.

(** A computation that moves the resource cache by [f]. *)
Definition sets_cache {A}
  (f : World -> option (option Model * list Element)
       -> option (option Model * list Element))
  (c : St A) : Prop :=
  forall w p, resource_cache (snd (c w p)) = f w (resource_cache p).

(** The two elements that close the page (lines 231-237). *)
Definition footer : list (Container * Element) :=
  [(Main, Markdown (plain "---") false);
   (Main, Markdown (plain FOOTER) true)].

(** What the handler of the [try] block draws for an exception. *)
Definition prediction_error_notice (e : Exception)
  : list (Container * Element) :=
  [(Column 1, ErrorBox [Lit "Prediction error: "; Lit (str e)]);
   (Column 1,
    InfoBox (plain "Please check that all required features are provided."))].

(** The head of the page (lines 8-28 and 137-138). *)
Definition page_head : list (Container * Element) :=
  [(Main, PageConfig "Bank Marketing Predictor" "💰" "wide");
   (Main, Markdown (plain CSS) true);
   (Main, Title (plain "🏦 Bank Term Deposit Subscription Predictor"));
   (Main, Markdown (plain "---") false)].

(** The page down to the button, given the text of the profile summary. *)
Definition page_until_button (w : World)
  (cache : option (option Model * list Element)) (summary : Text)
  : list (Container * Element) :=
  (page_head ++ map (pair Main) (load_notices w cache) ++ form_page w
   ++ [(Main, Columns [1; 1]);
       (Column 0, Subheader (plain "📊 Client Profile Summary"));
       (Column 0, Markdown summary false);
       (Column 1, Subheader (plain "🎯 Prediction"));
       (Column 1, Button "🔮 Predict Subscription")])%list.

(** What a prediction that went through shows under the button. *)
Definition results_shown (prediction : Scalar) (probability : float)
  : list (Container * Element) :=
  map (pair (Column 1))
    ((if py_eq prediction (Int 1)
      then [SuccessBox (plain "### ✅ LIKELY TO SUBSCRIBE"); Balloons]
      else [ErrorBox (plain "### ❌ UNLIKELY TO SUBSCRIBE")])
     ++ [Metric "Subscription Probability" [Fmt (Float probability) ".1%"];
         Progress probability;
         Markdown (plain "---") false;
         Subheader (plain "💡 Recommendation");
         recommendation (tier probability)])%list.

(** A pipeline that scores every frame the same. *)
Definition constant_model (label : Z) (probability : float) : Model :=
  mkModel
    (fun _ => Ok [Int label])
    (fun _ => Ok [[(1 - probability)%float; probability]]).

(** A pipeline that rejects every frame, and a world that holds it as its
    artifact, shows the untouched form and runs on a click of the
    button. *)
Definition rejecting_model : Model :=
  mkModel
    (fun _ => Err (mkException "ValueError" "columns are missing"))
    (fun _ => Err (mkException "ValueError" "columns are missing")).

Definition clicked_world (m : Model) : World :=
  mkWorld (fun _ => true) (fun _ => Ok m) (fun _ => None) (fun _ => true).

(** The cache of a process after its first run in that world, the run in
    which the page first shows. *)
Definition cache_after_first_run (m : Model)
  : option (option Model * list Element) :=
  resource_cache (snd (run (idle (clicked_world m)) None)).

(** The marks of a prediction that went through, under the button: every
    such run draws the metric and the progress bar there. *)
Definition is_result (ce : Container * Element) : bool :=
  match fst ce with
  | Column 1%nat =>
      match snd ce with
      | SuccessBox _ | WarningBox _ | Balloons | Metric _ _ | Progress _ =>
          true
      | _ => false
      end
  | _ => false
  end.

(** A pipeline that scores the clients with a low contact count and
    rejects the frame of any other, as an encoder fitted without that
    category does; and the world that holds it, with the campaign count
    set to [n], the other widgets untouched and the button clicked. *)
Definition picky_model : Model :=
  mkModel
    (fun df =>
       match pd.getitem df "campaign_successful" with
       | Ok [Int 1] => Ok [Int 1]
       | _ => Err (mkException "ValueError" "Found unknown categories")
       end)
    (fun df =>
       match pd.getitem df "campaign_successful" with
       | Ok [Int 1] => Ok [[0.1%float; 0.9%float]]
       | _ => Err (mkException "ValueError" "Found unknown categories")
       end).

Definition contacted (n : Z) : World :=
  mkWorld (fun _ => true) (fun _ => Ok picky_model)
    (fun label =>
       if String.eqb label "Contacts in Current Campaign"
       then Some (Int n) else None)
    (fun _ => true).

(** The [try] statement of lines 181-228 for a model that is there. *)
Definition try_block (m : Model) (df : pd.DataFrame) : St unit :=
  try_except (predict_and_show (Some m) df) on_prediction_error.

(** What the [try] statement draws and which calls it makes, read off a
    run of it in an empty process. *)
Definition prediction_drawn (w : World) (m : Model) (df : pd.DataFrame)
  : list Element :=
  map snd (page (snd (try_block m df w (mkProc None Main [] [])))).

Definition prediction_calls (w : World) (m : Model) (df : pd.DataFrame)
  : list Call :=
  calls (snd (try_block m df w (mkProc None Main [] []))).

Definition is_error_box (e : Element) : bool :=
  match e with
  | ErrorBox _ => true
  | _ => false
  end.

(** A cache that stores [None] stores the error box that went with it. *)
Definition cache_reports (cache : option (option Model * list Element))
  : Prop :=
  match cache with
  | Some (None, els) => existsb is_error_box els = true
  | _ => True
  end.

(** The value a widget element shows, and the values a page shows in its
    widgets, top to bottom. *)
Definition shown_value (e : Element) : option Scalar :=
  match e with
  | Slider _ _ _ v => Some v
  | Selectbox _ _ v => Some v
  | NumberInput _ _ _ _ v => Some v
  | _ => None
  end.

Definition shown_values (pg : list (Container * Element)) : list Scalar :=
  flat_map (fun ce => match shown_value (snd ce) with
                      | Some v => [v]
                      | None => []
                      end) pg.

(** The values an f-string interpolates, left to right. *)
Definition interpolated (t : Text) : list Scalar :=
  flat_map (fun part => match part with
                        | Fmt v _ => [v]
                        | Lit _ => []
                        end) t.

(** A frame of two clients, for the row-wise reading of [engineer]. *)
Definition two_clients : pd.DataFrame :=
  [("campaign", [Int 2; Int 7]);
   ("pdays", [Int 999; Int 5]);
   ("poutcome", [Str "nonexistent"; Str "success"])].

(** The verdict and the metric, which are drawn before the progress bar,
    and the exception of [st.progress] for a value it refuses. *)
Definition verdict_and_metric (prediction : Scalar) (probability : float)
  : list (Container * Element) :=
  map (pair (Column 1))
    ((if py_eq prediction (Int 1)
      then [SuccessBox (plain "### ✅ LIKELY TO SUBSCRIBE"); Balloons]
      else [ErrorBox (plain "### ❌ UNLIKELY TO SUBSCRIBE")])
     ++ [Metric "Subscription Probability" [Fmt (Float probability) ".1%"]])%list.

Definition progress_error (value : float) : Exception :=
  mkException "StreamlitAPIException"
    ("Progress Value has invalid value [0.0, 1.0]: " ++ format_f value).

(** ** Order of binary64 numbers *)

Lemma SFcompare_antisym (a b : spec_float) :
  SFcompare b a = option_map CompOpp (SFcompare a b).
Proof.
  destruct a as [sa|sa| |sa ma ea], b as [sb|sb| |sb mb eb]; simpl;
    try reflexivity;
    try (destruct sa; reflexivity);
    try (destruct sb; reflexivity);
    try (destruct sa, sb; reflexivity).
  destruct sa, sb; simpl; try reflexivity;
    rewrite (Z.compare_antisym ea eb);
    destruct (ea ?= eb)%Z; simpl; try reflexivity;
    change (Pos.compare_cont Eq mb ma) with (Pos.compare mb ma);
    change (Pos.compare_cont Eq ma mb) with (Pos.compare ma mb);
    rewrite (Pos.compare_antisym ma mb); reflexivity.
Qed.

Lemma SFcompare_defined (a b : spec_float) :
  a <> S754_nan -> b <> S754_nan -> SFcompare a b <> None.
Proof.
  intros Ha Hb.
  destruct a as [sa|sa| |sa ma ea], b as [sb|sb| |sb mb eb];
    simpl; congruence.
Qed.

Lemma SFcompare_some_l (a b : spec_float) (c : comparison) :
  SFcompare a b = Some c -> a <> S754_nan.
Proof. destruct a; simpl; congruence. Qed.

Lemma SFcompare_some_r (a b : spec_float) (c : comparison) :
  SFcompare a b = Some c -> b <> S754_nan.
Proof.
  destruct a as [sa|sa| |sa ma ea], b as [sb|sb| |sb mb eb];
    simpl; congruence.
Qed.

(** A number that compares as [<=] with another is not NaN. *)
Lemma le_true_not_nan (x y : float) :
  F64.le x y = true -> Prim2SF x <> S754_nan /\ Prim2SF y <> S754_nan.
Proof.
  unfold F64.le. rewrite leb_spec. unfold SFleb.
  destruct (SFcompare (Prim2SF x) (Prim2SF y)) as [c|] eqn:E; [|discriminate].
  intros _. split.
  - exact (SFcompare_some_l _ _ _ E).
  - exact (SFcompare_some_r _ _ _ E).
Qed.

(** Away from NaN, [x <= y] is the negation of [x > y]. *)
Lemma le_is_not_gt (x y : float) :
  Prim2SF x <> S754_nan -> Prim2SF y <> S754_nan ->
  F64.le x y = negb (F64.gt x y).
Proof.
  intros Hx Hy. unfold F64.le, F64.gt.
  rewrite leb_spec, ltb_spec. unfold SFleb, SFltb.
  rewrite (SFcompare_antisym (Prim2SF x) (Prim2SF y)).
  pose proof (SFcompare_defined _ _ Hx Hy) as D.
  destruct (SFcompare (Prim2SF x) (Prim2SF y)) as [[]|]; simpl;
    congruence.
Qed.

(** [x > y] excludes [x <= y], NaN or not. *)
Lemma gt_excludes_le (x y : float) :
  F64.gt x y = true -> F64.le x y = false.
Proof.
  unfold F64.le, F64.gt.
  rewrite leb_spec, ltb_spec. unfold SFleb, SFltb.
  rewrite (SFcompare_antisym (Prim2SF x) (Prim2SF y)).
  destruct (SFcompare (Prim2SF x) (Prim2SF y)) as [[]|]; simpl;
    congruence.
Qed.

(** Whatever lies above 0.7 lies above 0.4. *)
Lemma gt_07_gt_04 (p : float) :
  F64.gt p 0.7%float = true -> F64.gt p 0.4%float = true.
Proof.
  unfold F64.gt. rewrite !ltb_spec. unfold SFltb.
  replace (Prim2SF 0.7%float) with
    (S754_finite false 6305039478318694 (-53)) by (vm_compute; reflexivity).
  replace (Prim2SF 0.4%float) with
    (S754_finite false 7205759403792794 (-54)) by (vm_compute; reflexivity).
  destruct (Prim2SF p) as [s|s| |s m e];
    cbv beta iota delta [SFcompare]; try discriminate.
  - destruct s; [discriminate | reflexivity].
  - destruct s; [discriminate|].
    destruct (Z.compare_spec (-53) e) as [E|E|E]; try discriminate.
    + subst e. reflexivity.
    + intros _. destruct (Z.compare_spec (-54) e) as [E'|E'|E'];
        try lia; reflexivity.
Qed.

Lemma unit_interval_not_nan (p : float) :
  in_unit_interval p = true -> Prim2SF p <> S754_nan.
Proof.
  unfold in_unit_interval. intros H.
  apply andb_prop in H. destruct H as [H _].
  exact (proj2 (le_true_not_nan _ _ H)).
Qed.

Lemma cutoffs_not_nan :
  Prim2SF 0.7%float <> S754_nan /\ Prim2SF 0.4%float <> S754_nan.
Proof. split; vm_compute; discriminate. Qed.

(** ** Recommendation bands *)

(** The conditional of [tier], read through its two tests. *)
Lemma tier_cases (p : float) :
  (F64.gt p 0.7%float = true /\ tier p = HIGH)
  \/ (F64.gt p 0.7%float = false /\ F64.gt p 0.4%float = true
      /\ tier p = MEDIUM)
  \/ (F64.gt p 0.7%float = false /\ F64.gt p 0.4%float = false
      /\ tier p = LOW).
Proof.
  unfold tier.
  destruct (F64.gt p 0.7%float); [left; split; reflexivity|].
  destruct (F64.gt p 0.4%float); [right; left | right; right];
    repeat split; reflexivity.
Qed.

(** [recommend] draws the box of the band. *)
Lemma recommend_draws_tier (p : float) :
  recommend p = draw (recommendation (tier p)).
Proof.
  unfold recommend, tier.
  destruct (F64.gt p 0.7%float); [reflexivity|].
  destruct (F64.gt p 0.4%float); reflexivity.
Qed.

(** The band of the code is the band of the specification. *)
Lemma tier_refines_spec_band (p : float) (t : Tier) :
  in_unit_interval p = true ->
  (tier p = t <-> spec_band t p = true).
Proof.
  intros Hp.
  pose proof (unit_interval_not_nan p Hp) as Np.
  destruct cutoffs_not_nan as [N7 N4].
  pose proof (gt_07_gt_04 p) as T.
  unfold spec_band.
  rewrite (le_is_not_gt p 0.7%float Np N7).
  rewrite (le_is_not_gt p 0.4%float Np N4).
  change (F64.lt 0.4%float p) with (F64.gt p 0.4%float).
  destruct (tier_cases p) as [[H7 Ht]|[[H7 [H4 Ht]]|[H7 [H4 Ht]]]];
    rewrite Ht, H7 in *; try rewrite H4 in *.
  - rewrite T by reflexivity. destruct t; simpl; split; congruence.
  - destruct t; simpl; split; congruence.
  - destruct t; simpl; split; congruence.
Qed.

Lemma recommendation_inj (t t' : Tier) :
  recommendation t = recommendation t' -> t = t'.
Proof. destruct t, t'; simpl; intros H; congruence || discriminate H. Qed.

(** C4. For a probability [p] between 0.0 and 1.0 the band is HIGH exactly
    when [p > 0.7], MEDIUM exactly when [0.4 < p] and [p <= 0.7], and LOW
    exactly when [p <= 0.4]; since both tests are strict, 0.7 itself is
    MEDIUM and 0.4 itself is LOW. The band is the one of the script:
    [recommend] draws the box of the band of [p], the warning box at 0.7
    and the info box at 0.4, and the boxes of two bands differ. The
    comparisons are those of binary64 and the cutoffs are the doubles the
    literals denote. *)
Theorem tier_bands (p : float) :
  in_unit_interval p = true ->
  (tier p = HIGH <-> F64.gt p 0.7%float = true)
  /\ (tier p = MEDIUM <->
      F64.lt 0.4%float p = true /\ F64.le p 0.7%float = true)
  /\ (tier p = LOW <-> F64.le p 0.4%float = true)
  /\ tier 0.7%float = MEDIUM
  /\ tier 0.4%float = LOW
  /\ recommend p = draw (recommendation (tier p))
  /\ recommend 0.7%float = st.warning (plain MEDIUM_PRIORITY)
  /\ recommend 0.4%float = st.info (plain LOW_PRIORITY)
  /\ (forall t t', recommendation t = recommendation t' -> t = t').
Proof.
  intros Hp.
  pose proof (tier_refines_spec_band p HIGH Hp) as Hh.
  pose proof (tier_refines_spec_band p MEDIUM Hp) as Hm.
  pose proof (tier_refines_spec_band p LOW Hp) as Hl.
  simpl in Hh, Hm, Hl. rewrite andb_true_iff in Hm.
  split; [exact Hh|]. split; [exact Hm|]. split; [exact Hl|].
  split; [reflexivity|]. split; [reflexivity|].
  split; [apply recommend_draws_tier|].
  split; [reflexivity|]. split; [reflexivity|].
  exact recommendation_inj.
Qed.

Lemma tier_bands_witness :
  in_unit_interval 0.55%float = true
  /\ ((tier 0.55%float = HIGH <-> F64.gt 0.55%float 0.7%float = true)
      /\ (tier 0.55%float = MEDIUM <->
          F64.lt 0.4%float 0.55%float = true
          /\ F64.le 0.55%float 0.7%float = true)
      /\ (tier 0.55%float = LOW <-> F64.le 0.55%float 0.4%float = true)
      /\ tier 0.7%float = MEDIUM
      /\ tier 0.4%float = LOW
      /\ recommend 0.55%float = draw (recommendation (tier 0.55%float))
      /\ recommend 0.7%float = st.warning (plain MEDIUM_PRIORITY)
      /\ recommend 0.4%float = st.info (plain LOW_PRIORITY)
      /\ (forall t t', recommendation t = recommendation t' -> t = t')).
Proof.
  split; [reflexivity | apply (tier_bands 0.55%float); reflexivity].
Defined.

(** C5. Every probability between 0.0 and 1.0 falls in exactly one band
    of the specification, the one of [tier]; [recommend] draws the box of
    that band and no other, and the three boxes differ, so the box drawn
    tells the band. *)
Theorem tier_partition (p : float) :
  in_unit_interval p = true ->
  spec_band (tier p) p = true
  /\ (forall t, spec_band t p = true -> t = tier p)
  /\ recommend p = draw (recommendation (tier p))
  /\ (forall t, recommendation t = recommendation (tier p) -> t = tier p).
Proof.
  intros Hp. split; [|split; [|split]].
  - apply (tier_refines_spec_band p (tier p) Hp). reflexivity.
  - intros t Ht. symmetry. apply (tier_refines_spec_band p t Hp). exact Ht.
  - apply recommend_draws_tier.
  - intros t. apply recommendation_inj.
Qed.

Lemma tier_partition_witness :
  in_unit_interval 0.4%float = true
  /\ (spec_band (tier 0.4%float) 0.4%float = true
      /\ (forall t, spec_band t 0.4%float = true -> t = tier 0.4%float)
      /\ recommend 0.4%float = draw (recommendation (tier 0.4%float))
      /\ (forall t, recommendation t = recommendation (tier 0.4%float) ->
                    t = tier 0.4%float)).
Proof.
  split; [reflexivity | apply (tier_partition 0.4%float); reflexivity].
Defined.

(** Outside the probabilities the bands of the specification leave a gap:
    NaN is in none of them, and the code shows it the LOW box. *)
Lemma nan_in_no_band :
  tier nan = LOW /\ forall t, spec_band t nan = false.
Proof. split; [reflexivity | intros []; reflexivity]. Qed.

(** ** Python comparisons on sample values *)

Example lt_float_int : py_lt (Float 4.5%float) (Int 5) = Ok true.
Proof. reflexivity. Qed.

Example lt_int_float : py_lt (Int 5) (Float 4.5%float) = Ok false.
Proof. reflexivity. Qed.

Example eq_float_int : py_eq (Float 999.0%float) (Int 999) = true.
Proof. reflexivity. Qed.

Example lt_str_int :
  py_lt (Str "2") (Int 5)
  = Err (TypeError "'<' not supported between instances of 'str' and 'int'").
Proof. reflexivity. Qed.

Example index_past_the_end :
  np.getitem2 [[0.5%float]] 0 1
  = Err (IndexError "index 1 is out of bounds for axis 1 with size 1").
Proof. reflexivity. Qed.

(** ** The feature builder *)

(** The frame [build] returns: the row of the dictionary followed by the
    three engineered columns; the only step that can raise is the
    comparison inside the lambda. *)
Lemma build_eq (r : RawFields) :
  build r =
  rbind (low_contact (campaign r)) (fun v =>
    Ok (pd.DataFrame_of_row (feature_dict r)
        ++ [("was_previously_contacted",
             [Int (if py_ne (pdays r) (Int 999) then 1 else 0)]);
            ("campaign_successful", [v]);
            ("poutcome_success",
             [Int (if py_eq (poutcome r) (Str "success") then 1 else 0)])])%list).
Proof.
  transitivity
    (rbind (rbind (low_contact (campaign r)) (fun b => Ok [b])) (fun s' =>
       Ok (pd.DataFrame_of_row (feature_dict r)
           ++ [("was_previously_contacted",
                [Int (if py_ne (pdays r) (Int 999) then 1 else 0)]);
               ("campaign_successful", s');
               ("poutcome_success",
                [Int (if py_eq (poutcome r) (Str "success")
                      then 1 else 0)])])%list)).
  - reflexivity.
  - destruct (low_contact (campaign r)); reflexivity.
Qed.

Lemma low_contact_int (c : Z) :
  low_contact (Int c) = Ok (Int (if c <? 5 then 1 else 0)).
Proof. reflexivity. Qed.

(** The lambda raises on text and on [None] only. *)
Lemma low_contact_number (v : Scalar) :
  (exists n, v = Int n) \/ (exists x, v = Float x) ->
  exists b, low_contact v = Ok (Int b).
Proof.
  intros [[n ->]|[x ->]]; unfold low_contact; simpl; eexists; reflexivity.
Qed.

Lemma py_eq_str (v : Scalar) (s : string) :
  py_eq v (Str s) = true <-> v = Str s.
Proof.
  destruct v as [n|x|s'|]; simpl; split; try discriminate.
  - intros H. apply String.eqb_eq in H. congruence.
  - intros H. inversion H. apply String.eqb_refl.
Qed.

(** C1. In the frame of every record whose campaign count is the integer
    [c], the column [campaign_successful] holds 1 when [c < 5] and 0 when
    [c >= 5]: it flags a low contact count. *)
Theorem campaign_successful_flags_low_count (r : RawFields) (c : Z) :
  campaign r = Int c ->
  exists df,
    build r = Ok df
    /\ (c < 5 -> pd.getitem df "campaign_successful" = Ok [Int 1])
    /\ (5 <= c -> pd.getitem df "campaign_successful" = Ok [Int 0]).
Proof.
  intros Hc. rewrite build_eq, Hc, low_contact_int. simpl rbind.
  eexists. split; [reflexivity|].
  split; intros H.
  - apply Z.ltb_lt in H. rewrite H. reflexivity.
  - apply Z.ltb_ge in H. rewrite H. reflexivity.
Qed.

Lemma campaign_successful_flags_low_count_witness :
  campaign scenario_B = Int 7
  /\ exists df,
       build scenario_B = Ok df
       /\ (7 < 5 -> pd.getitem df "campaign_successful" = Ok [Int 1])
       /\ (5 <= 7 -> pd.getitem df "campaign_successful" = Ok [Int 0]).
Proof.
  split;
    [reflexivity
    | apply (campaign_successful_flags_low_count scenario_B 7); reflexivity].
Defined.

(** What [build] leaves in the three engineered columns. *)
Lemma build_derived (r : RawFields) (df : pd.DataFrame) :
  build r = Ok df ->
  exists v,
    low_contact (campaign r) = Ok v
    /\ derived_features df =
       (Ok [Int (if py_ne (pdays r) (Int 999) then 1 else 0)],
        Ok [v],
        Ok [Int (if py_eq (poutcome r) (Str "success") then 1 else 0)]).
Proof.
  rewrite build_eq. destruct (low_contact (campaign r)) as [v|e]; simpl.
  - intros H. injection H as <-. exists v. split; reflexivity.
  - discriminate.
Qed.

(** C2. In the frame of every record whose [pdays] is the integer [n], the
    column [was_previously_contacted] holds 1 when [n] is not 999 and 0
    when it is; with [pdays] 999, [campaign] 2 and [poutcome]
    "nonexistent" the engineered columns hold 0, 1, 0. *)
Theorem was_previously_contacted_sentinel
  (r : RawFields) (n : Z) (df : pd.DataFrame) :
  pdays r = Int n ->
  build r = Ok df ->
  (n <> 999 -> pd.getitem df "was_previously_contacted" = Ok [Int 1])
  /\ (n = 999 -> pd.getitem df "was_previously_contacted" = Ok [Int 0])
  /\ (n = 999 -> campaign r = Int 2 -> poutcome r = Str "nonexistent" ->
      derived_features df = (Ok [Int 0], Ok [Int 1], Ok [Int 0])).
Proof.
  intros Hn Hb.
  destruct (build_derived r df Hb) as (v & Hv & Hd).
  rewrite Hn in Hd. unfold derived_features in Hd.
  injection Hd as H1 H2 H3.
  split; [|split].
  - intros Hne. rewrite H1. unfold py_ne. simpl.
    apply Z.eqb_neq in Hne. rewrite Hne. reflexivity.
  - intros ->. rewrite H1. reflexivity.
  - intros -> Hc Hp. unfold derived_features.
    rewrite H1, H2, H3. rewrite Hc in Hv. rewrite Hp.
    rewrite low_contact_int in Hv. injection Hv as <-. reflexivity.
Qed.

Lemma was_previously_contacted_sentinel_witness :
  pdays scenario_A = Int 999
  /\ build scenario_A = Ok (frame_of scenario_A)
  /\ (999 <> 999 ->
      pd.getitem (frame_of scenario_A) "was_previously_contacted"
      = Ok [Int 1])
  /\ (999 = 999 ->
      pd.getitem (frame_of scenario_A) "was_previously_contacted"
      = Ok [Int 0])
  /\ (999 = 999 -> campaign scenario_A = Int 2 ->
      poutcome scenario_A = Str "nonexistent" ->
      derived_features (frame_of scenario_A)
      = (Ok [Int 0], Ok [Int 1], Ok [Int 0])).
Proof.
  split; [reflexivity|]. split; [reflexivity|].
  apply (was_previously_contacted_sentinel scenario_A 999
           (frame_of scenario_A)); reflexivity.
Defined.

(** C3. In the frame of every record the column [poutcome_success] holds 1
    when [poutcome] is the string "success" and 0 otherwise; with [pdays]
    5, [campaign] 7 and [poutcome] "success" the engineered columns hold
    1, 0, 1. *)
Theorem poutcome_success_iff_success (r : RawFields) (df : pd.DataFrame) :
  build r = Ok df ->
  (pd.getitem df "poutcome_success" = Ok [Int 1]
   <-> poutcome r = Str "success")
  /\ (pd.getitem df "poutcome_success" = Ok [Int 0]
      <-> poutcome r <> Str "success")
  /\ (pdays r = Int 5 -> campaign r = Int 7 -> poutcome r = Str "success" ->
      derived_features df = (Ok [Int 1], Ok [Int 0], Ok [Int 1])).
Proof.
  intros Hb.
  destruct (build_derived r df Hb) as (v & Hv & Hd).
  unfold derived_features in Hd. injection Hd as H1 H2 H3.
  pose proof (py_eq_str (poutcome r) "success") as E.
  split; [|split].
  - rewrite H3. destruct (py_eq (poutcome r) (Str "success")).
    + split; [intros _; apply E; reflexivity | reflexivity].
    + split; [discriminate|].
      intros H. apply E in H. discriminate.
  - rewrite H3. destruct (py_eq (poutcome r) (Str "success")).
    + split; [discriminate|].
      intros H. exfalso. apply H, E. reflexivity.
    + split; [|reflexivity].
      intros _ H. apply E in H. discriminate.
  - intros Hn Hc Hp. unfold derived_features.
    rewrite H1, H2, H3, Hn, Hp. rewrite Hc in Hv.
    rewrite low_contact_int in Hv. injection Hv as <-. reflexivity.
Qed.

Lemma poutcome_success_iff_success_witness :
  build scenario_B = Ok (frame_of scenario_B)
  /\ (pd.getitem (frame_of scenario_B) "poutcome_success" = Ok [Int 1]
      <-> poutcome scenario_B = Str "success")
  /\ (pd.getitem (frame_of scenario_B) "poutcome_success" = Ok [Int 0]
      <-> poutcome scenario_B <> Str "success")
  /\ (pdays scenario_B = Int 5 -> campaign scenario_B = Int 7 ->
      poutcome scenario_B = Str "success" ->
      derived_features (frame_of scenario_B)
      = (Ok [Int 1], Ok [Int 0], Ok [Int 1])).
Proof.
  split; [reflexivity|].
  apply (poutcome_success_iff_success scenario_B (frame_of scenario_B)).
  reflexivity.
Defined.

Example frame_of_scenario_A :
  build scenario_A =
  Ok [("age", [Int 35]); ("job", [Str "admin."]);
      ("marital", [Str "married"]); ("education", [Str "basic.4y"]);
      ("default", [Str "no"]); ("housing", [Str "no"]); ("loan", [Str "no"]);
      ("contact", [Str "cellular"]); ("month", [Str "jan"]);
      ("day_of_week", [Str "mon"]); ("campaign", [Int 2]);
      ("pdays", [Int 999]); ("previous", [Int 0]);
      ("poutcome", [Str "nonexistent"]);
      ("emp.var.rate", [Float 1.1%float]);
      ("cons.price.idx", [Float 93.994%float]);
      ("cons.conf.idx", [Float (-36.4)%float]);
      ("euribor3m", [Float 4.857%float]);
      ("nr.employed", [Float 5191.0%float]);
      ("was_previously_contacted", [Int 0]);
      ("campaign_successful", [Int 1]);
      ("poutcome_success", [Int 0])].
Proof. reflexivity. Qed.

Lemma within_bounds_campaign (r : RawFields) :
  within_bounds r = true -> int_between 1 50 (campaign r) = true.
Proof.
  unfold within_bounds. intros H.
  repeat (apply andb_prop in H; destruct H as [H ?]).
  assumption.
Qed.

Lemma int_between_inv (lo hi : Z) (v : Scalar) :
  int_between lo hi v = true -> exists n, v = Int n /\ lo <= n <= hi.
Proof.
  destruct v as [n|x|s|]; simpl; try discriminate.
  intros H. apply andb_prop in H. destruct H as [Hl Hh].
  apply Z.leb_le in Hl. apply Z.leb_le in Hh.
  exists n. split; [reflexivity | lia].
Qed.

(** [get_user_input] is the form followed by [build]. *)
Lemma get_user_input_unfold (w : World) (p : Proc) :
  get_user_input w p =
  match sidebar_form w p with
  | (Return r, p') => eval (build r) w p'
  | (Raise e, p') => (Raise e, p')
  | (Stop, p') => (Stop, p')
  end.
Proof. reflexivity. Qed.

(** C9. For every set of raw fields within the bounds of the widgets,
    [build] returns a frame and raises nothing; the result is a function
    of the fields alone, and in the script the step from the form to the
    frame leaves the page, the cache and the calls as the form left
    them. *)
Theorem build_total_within_bounds (r : RawFields) :
  within_bounds r = true ->
  exists df,
    build r = Ok df
    /\ forall w p p',
         sidebar_form w p = (Return r, p') ->
         get_user_input w p = (Return df, p').
Proof.
  intros H.
  apply within_bounds_campaign in H.
  apply int_between_inv in H. destruct H as (c & Hc & _).
  assert (Hb : build r = Ok (frame_of r)).
  { unfold frame_of. rewrite build_eq, Hc, low_contact_int. reflexivity. }
  exists (frame_of r). split; [exact Hb|].
  intros w p p' Hf.
  rewrite get_user_input_unfold, Hf, Hb. reflexivity.
Qed.

Lemma build_total_within_bounds_witness :
  within_bounds form_defaults = true
  /\ exists df,
       build form_defaults = Ok df
       /\ forall w p p',
            sidebar_form w p = (Return form_defaults, p') ->
            get_user_input w p = (Return df, p').
Proof.
  split;
    [reflexivity | apply (build_total_within_bounds form_defaults); reflexivity].
Defined.

(** The only records [build] raises on carry text or [None] as their
    campaign count, which no widget returns. *)
Lemma build_raises_on_text :
  exists e, build (mkRawFields (Int 35) (Str "admin.") (Str "married")
                     (Str "basic.4y") (Str "no") (Str "no") (Str "no")
                     (Str "cellular") (Str "jan") (Str "mon") (Str "2")
                     (Int 999) (Int 0) (Str "nonexistent") (Float 1.1%float)
                     (Float 93.994%float) (Float (-36.4)%float)
                     (Float 4.857%float) (Float 5191.0%float)) = Err e
            /\ exc_class e = "TypeError".
Proof. eexists. split; reflexivity. Qed.

(** C10. In the frame [build] returns, each of the nineteen raw columns
    holds the value of the field of its name: [age] under "age", [job]
    under "job", and so on to [nr_employed] under "nr.employed", in the
    order of the dictionary, by position and by lookup. The columns are
    these nineteen followed by the three engineered ones and nothing
    else, and two records that agree on [pdays], [campaign] and
    [poutcome] get the same engineered columns whatever their other
    fields. *)
Theorem build_passes_raw_fields (r : RawFields) (df : pd.DataFrame) :
  build r = Ok df ->
  firstn 19 df =
    [("age", [age r]); ("job", [job r]); ("marital", [marital r]);
     ("education", [education r]); ("default", [default r]);
     ("housing", [housing r]); ("loan", [loan r]); ("contact", [contact r]);
     ("month", [month r]); ("day_of_week", [day_of_week r]);
     ("campaign", [campaign r]); ("pdays", [pdays r]);
     ("previous", [previous r]); ("poutcome", [poutcome r]);
     ("emp.var.rate", [emp_var_rate r]);
     ("cons.price.idx", [cons_price_idx r]);
     ("cons.conf.idx", [cons_conf_idx r]); ("euribor3m", [euribor3m r]);
     ("nr.employed", [nr_employed r])]
  /\ map (pd.getitem df)
      ["age"; "job"; "marital"; "education"; "default"; "housing"; "loan";
       "contact"; "month"; "day_of_week"; "campaign"; "pdays"; "previous";
       "poutcome"; "emp.var.rate"; "cons.price.idx"; "cons.conf.idx";
       "euribor3m"; "nr.employed"]
    = [Ok [age r]; Ok [job r]; Ok [marital r]; Ok [education r];
       Ok [default r]; Ok [housing r]; Ok [loan r]; Ok [contact r];
       Ok [month r]; Ok [day_of_week r]; Ok [campaign r]; Ok [pdays r];
       Ok [previous r]; Ok [poutcome r]; Ok [emp_var_rate r];
       Ok [cons_price_idx r]; Ok [cons_conf_idx r]; Ok [euribor3m r];
       Ok [nr_employed r]]
  /\ pd.columns df =
    (["age"; "job"; "marital"; "education"; "default"; "housing"; "loan";
       "contact"; "month"; "day_of_week"; "campaign"; "pdays"; "previous";
       "poutcome"; "emp.var.rate"; "cons.price.idx"; "cons.conf.idx";
       "euribor3m"; "nr.employed"]
     ++ ["was_previously_contacted"; "campaign_successful";
         "poutcome_success"])%list
  /\ (forall r' df',
        build r' = Ok df' ->
        pdays r' = pdays r -> campaign r' = campaign r ->
        poutcome r' = poutcome r ->
        derived_features df' = derived_features df).
Proof.
  intros Hb. split; [|split; [|split]].
  - rewrite build_eq in Hb.
    destruct (low_contact (campaign r)) as [c|e]; [|discriminate].
    injection Hb as <-. reflexivity.
  - rewrite build_eq in Hb.
    destruct (low_contact (campaign r)) as [c|e]; [|discriminate].
    injection Hb as <-. reflexivity.
  - rewrite build_eq in Hb.
    destruct (low_contact (campaign r)) as [c|e]; [|discriminate].
    injection Hb as <-. reflexivity.
  - intros r' df' Hb' Hp Hc Ho.
    destruct (build_derived r df Hb) as (v & Hv & Hd).
    destruct (build_derived r' df' Hb') as (v' & Hv' & Hd').
    rewrite Hd, Hd', Hp, Ho. rewrite Hc, Hv in Hv'.
    injection Hv' as <-. reflexivity.
Qed.

Lemma build_passes_raw_fields_witness :
  build scenario_A = Ok (frame_of scenario_A)
  /\ (
  firstn 19 (frame_of scenario_A) =
    [("age", [age scenario_A]); ("job", [job scenario_A]); ("marital", [marital scenario_A]);
     ("education", [education scenario_A]); ("default", [default scenario_A]);
     ("housing", [housing scenario_A]); ("loan", [loan scenario_A]); ("contact", [contact scenario_A]);
     ("month", [month scenario_A]); ("day_of_week", [day_of_week scenario_A]);
     ("campaign", [campaign scenario_A]); ("pdays", [pdays scenario_A]);
     ("previous", [previous scenario_A]); ("poutcome", [poutcome scenario_A]);
     ("emp.var.rate", [emp_var_rate scenario_A]);
     ("cons.price.idx", [cons_price_idx scenario_A]);
     ("cons.conf.idx", [cons_conf_idx scenario_A]); ("euribor3m", [euribor3m scenario_A]);
     ("nr.employed", [nr_employed scenario_A])]
  /\ map (pd.getitem (frame_of scenario_A))
      ["age"; "job"; "marital"; "education"; "default"; "housing"; "loan";
       "contact"; "month"; "day_of_week"; "campaign"; "pdays"; "previous";
       "poutcome"; "emp.var.rate"; "cons.price.idx"; "cons.conf.idx";
       "euribor3m"; "nr.employed"]
    = [Ok [age scenario_A]; Ok [job scenario_A]; Ok [marital scenario_A]; Ok [education scenario_A];
       Ok [default scenario_A]; Ok [housing scenario_A]; Ok [loan scenario_A]; Ok [contact scenario_A];
       Ok [month scenario_A]; Ok [day_of_week scenario_A]; Ok [campaign scenario_A]; Ok [pdays scenario_A];
       Ok [previous scenario_A]; Ok [poutcome scenario_A]; Ok [emp_var_rate scenario_A];
       Ok [cons_price_idx scenario_A]; Ok [cons_conf_idx scenario_A]; Ok [euribor3m scenario_A];
       Ok [nr_employed scenario_A]]
  /\ pd.columns (frame_of scenario_A) =
    (["age"; "job"; "marital"; "education"; "default"; "housing"; "loan";
       "contact"; "month"; "day_of_week"; "campaign"; "pdays"; "previous";
       "poutcome"; "emp.var.rate"; "cons.price.idx"; "cons.conf.idx";
       "euribor3m"; "nr.employed"]
     ++ ["was_previously_contacted"; "campaign_successful";
         "poutcome_success"])%list
  /\ (forall r' df',
        build r' = Ok df' ->
        pdays r' = pdays scenario_A -> campaign r' = campaign scenario_A ->
        poutcome r' = poutcome scenario_A ->
        derived_features df' = derived_features (frame_of scenario_A))).
Proof.
  split;
    [reflexivity
    | apply (build_passes_raw_fields scenario_A (frame_of scenario_A));
      reflexivity].
Defined.

(** ** The model loader *)

(** C7. Each time its body runs, [load_model] ends in one of three ways.
    When no file is at the fixed path it reports that the model file was
    not found, with the advice to produce it, and returns [None]; when the
    file is there and deserialising raises it reports the error with its
    cause and returns [None]; otherwise it returns the deserialised model
    and draws nothing. [None] comes back in these two failures only. The
    call under the cache returns and draws the same, on the first call of
    a process and on later ones as long as the file system is the one the
    cache was filled in. *)
Theorem load_model_outcomes (w : World) (p : Proc) :
  (path_exists w MODEL_PATH = false ->
   load_model_body w p =
   (Return None,
    drawn p [ErrorBox [Lit " Model file not found: "; Lit MODEL_PATH];
             InfoBox (plain "Please run the Jupyter notebook first to train and save the model.")]))
  /\ (forall e,
        path_exists w MODEL_PATH = true ->
        joblib_load w MODEL_PATH = Err e ->
        load_model_body w p =
        (Return None,
         drawn p [ErrorBox [Lit "Error loading model: "; Lit (str e)]]))
  /\ (forall m,
        path_exists w MODEL_PATH = true ->
        joblib_load w MODEL_PATH = Ok m ->
        load_model_body w p = (Return (Some m), p))
  /\ (fst (load_model_body w p) = Return None <->
      path_exists w MODEL_PATH = false
      \/ (path_exists w MODEL_PATH = true
          /\ exists e, joblib_load w MODEL_PATH = Err e))
  /\ (resource_cache p = None \/ resource_cache p = cache_after w None ->
      fst (load_model w p) = fst (load_model_body w p)
      /\ page (snd (load_model w p)) = page (snd (load_model_body w p))).
Proof.
  destruct p as [cache cont pg cs].
  split; [|split; [|split; [|split]]].
  - unfold load_model_body, bind, os.path.exists_, joblib.load, try_except,
      st.error, st.info, draw, draw_in, ret, eval, drawn.
    cbn [negb container page resource_cache calls map fst].
    intros ->. cbn [negb]. rewrite <- app_assoc. reflexivity.
  - unfold load_model_body, bind, os.path.exists_, joblib.load, try_except,
      st.error, st.info, draw, draw_in, ret, eval, drawn.
    cbn [negb container page resource_cache calls map fst].
    intros e -> Hj. cbn [negb]. rewrite Hj. reflexivity.
  - unfold load_model_body, bind, os.path.exists_, joblib.load, try_except,
      st.error, st.info, draw, draw_in, ret, eval, drawn.
    cbn [negb container page resource_cache calls map fst].
    intros m -> Hj. cbn [negb]. rewrite Hj. reflexivity.
  - unfold load_model_body, bind, os.path.exists_, joblib.load, try_except,
      st.error, st.info, draw, draw_in, ret, eval, drawn.
    cbn [negb container page resource_cache calls map fst].
    destruct (path_exists w MODEL_PATH); cbn [negb].
    + destruct (joblib_load w MODEL_PATH) as [m|e]; cbn [fst]; split.
      * discriminate.
      * intros [H|[_ [e H]]]; discriminate.
      * intros _. right. split; [reflexivity | exists e; reflexivity].
      * reflexivity.
    + split; [intros _; left; reflexivity | reflexivity].
  - unfold cache_after, fresh, load_model, st.cache_resource,
      load_model_body, bind, os.path.exists_, joblib.load, try_except,
      st.error, st.info, draw, draw_in, ret, eval.
    cbn [negb container page resource_cache calls map fst snd].
    destruct (path_exists w MODEL_PATH); cbn [negb];
      [destruct (joblib_load w MODEL_PATH) as [m|e]|];
      intros [->| ->]; split; cbn; rewrite ?app_nil_r, <- ?app_assoc;
      reflexivity.
Qed.

Lemma map_snd_pair {A B} (a : A) (l : list B) : map snd (map (pair a) l) = l.
Proof.
  induction l as [|b l IH]; simpl; [reflexivity | rewrite IH; reflexivity].
Qed.

(** Under the cache, [load_model] draws its notices into the current
    container and touches nothing else; what it returns, draws and stores
    depends on the world and on the cache only. *)
Lemma load_model_run (w : World) (p : Proc) :
  load_model w p =
  (load_result w (resource_cache p),
   mkProc (cache_after w (resource_cache p)) (container p)
     (page p ++ map (pair (container p)) (load_notices w (resource_cache p)))
     (calls p)).
Proof.
  destruct p as [cache cont pg cs].
  unfold load_result, load_notices, cache_after, fresh, load_model,
    st.cache_resource.
  cbn [resource_cache container page calls].
  destruct cache as [[v els]|].
  - cbn [fst snd page resource_cache app]. rewrite map_snd_pair. reflexivity.
  - unfold load_model_body, bind, os.path.exists_, joblib.load, try_except,
      st.error, st.info, draw, draw_in, ret, eval.
    cbn [resource_cache container page calls].
    destruct (path_exists w MODEL_PATH); cbn [negb];
      [destruct (joblib_load w MODEL_PATH) as [m|e]|]; reflexivity.
Qed.

Lemma load_result_returns (w : World)
  (cache : option (option Model * list Element)) :
  exists v, load_result w cache = Return v.
Proof.
  unfold load_result, fresh, load_model, st.cache_resource.
  cbn [resource_cache container page calls].
  destruct cache as [[v els]|].
  - exists v. reflexivity.
  - unfold load_model_body, bind, os.path.exists_, joblib.load, try_except,
      st.error, st.info, draw, draw_in, ret, eval.
    cbn [resource_cache container page calls].
    destruct (path_exists w MODEL_PATH); cbn [negb];
      [destruct (joblib_load w MODEL_PATH) as [m|e]|];
      eexists; reflexivity.
Qed.

(** What [load_model] draws and stores are notices, provided the cache it
    found held notices. *)
Lemma load_model_notices (w : World)
  (cache : option (option Model * list Element)) :
  cache_ok cache ->
  forallb is_notice (load_notices w cache) = true
  /\ cache_ok (cache_after w cache).
Proof.
  unfold load_notices, cache_after, fresh, load_model, st.cache_resource.
  cbn [resource_cache container page calls].
  destruct cache as [[v els]|].
  - cbn [cache_ok fst snd page resource_cache app].
    rewrite map_snd_pair. intros H. split; exact H.
  - intros _.
    unfold load_model_body, bind, os.path.exists_, joblib.load, try_except,
      st.error, st.info, draw, draw_in, ret, eval.
    cbn [resource_cache container page calls].
    destruct (path_exists w MODEL_PATH); cbn [negb];
      [destruct (joblib_load w MODEL_PATH) as [m|e]|];
      split; reflexivity.
Qed.

(** ** The form *)

(** The form always returns: it draws its widgets in the sidebar and
    touches nothing else. *)
Lemma sidebar_form_run (w : World) (p : Proc) :
  sidebar_form w p =
  (Return (form_fields w),
   mkProc (resource_cache p) (container p) (page p ++ form_page w) (calls p)).
Proof.
  destruct p as [cache cont pg cs].
  unfold form_fields, form_page, fresh.
  cbv [sidebar_form bind ret st.sidebar.header st.sidebar.subheader
       st.sidebar.slider st.sidebar.selectbox st.sidebar.number_input
       st.sidebar.number_input_float draw_in widget_value
       resource_cache container page calls fst snd].
  rewrite <- !app_assoc. reflexivity.
Qed.

Lemma get_user_input_run (w : World) (p : Proc) :
  get_user_input w p =
  (match input_frame w with
   | Ok df => Return df
   | Err e => Raise e
   end,
   mkProc (resource_cache p) (container p) (page p ++ form_page w) (calls p)).
Proof.
  rewrite get_user_input_unfold, sidebar_form_run.
  unfold input_frame, eval.
  destruct (build (form_fields w)); reflexivity.
Qed.

(** [within_bounds] states the bounds the widgets of the form declare:
    the fields of a world are within bounds exactly when each widget drawn
    shows a value it admits. *)
Lemma within_bounds_of_widgets (w : World) :
  within_bounds (form_fields w)
  = forallb (fun ce => widget_ok (snd ce)) (form_page w).
Proof.
  unfold within_bounds, form_fields, form_page, fresh.
  cbv [sidebar_form bind ret st.sidebar.header st.sidebar.subheader
       st.sidebar.slider st.sidebar.selectbox st.sidebar.number_input
       st.sidebar.number_input_float draw_in widget_value
       resource_cache container page calls fst snd app forallb widget_ok
       age job marital education default housing loan contact month
       day_of_week campaign pdays previous poutcome emp_var_rate
       cons_price_idx cons_conf_idx euribor3m nr_employed].
  rewrite ?andb_true_r, <- ?andb_assoc. reflexivity.
Qed.

(** With every widget within its bounds, [get_user_input] returns a
    frame. *)
Lemma get_user_input_returns (w : World) (p : Proc) :
  forallb (fun ce => widget_ok (snd ce)) (form_page w) = true ->
  exists df,
    get_user_input w p =
    (Return df,
     mkProc (resource_cache p) (container p) (page p ++ form_page w)
       (calls p)).
Proof.
  rewrite <- within_bounds_of_widgets. intros H.
  apply within_bounds_campaign in H.
  apply int_between_inv in H. destruct H as (c & Hc & _).
  rewrite get_user_input_run. unfold input_frame.
  rewrite build_eq, Hc, low_contact_int. eexists. reflexivity.
Qed.

(** Every element of the form is a sidebar widget or heading. *)
Lemma form_page_sidebar (w : World) :
  forallb (fun ce => match fst ce with Sidebar => true | _ => false end)
    (form_page w) = true
  /\ forallb (fun ce => negb (is_button (snd ce))) (form_page w) = true.
Proof. split; reflexivity. Qed.

(** ** The cache across runs *)

Section KeepsCache.

Context {A B : Type}.

Lemma keeps_ret (a : A) : keeps_cache (ret a).
Proof. intros w p. reflexivity. Qed.

Lemma keeps_eval (r : Result A) : keeps_cache (eval r).
Proof. intros w p. unfold eval. destruct r; reflexivity. Qed.

Lemma keeps_bind (c : St A) (k : A -> St B) :
  keeps_cache c -> (forall a, keeps_cache (k a)) -> keeps_cache (bind c k).
Proof.
  intros Hc Hk w p. unfold bind.
  specialize (Hc w p). destruct (c w p) as [[a|e|] p']; simpl in *.
  - rewrite (Hk a w p'). exact Hc.
  - exact Hc.
  - exact Hc.
Qed.

Lemma keeps_try_except (body : St A) (handler : Exception -> St A) :
  keeps_cache body -> (forall e, keeps_cache (handler e)) ->
  keeps_cache (try_except body handler).
Proof.
  intros Hb Hh w p. unfold try_except.
  specialize (Hb w p). destruct (body w p) as [[a|e|] p']; simpl in *.
  - exact Hb.
  - rewrite (Hh e w p'). exact Hb.
  - exact Hb.
Qed.

Lemma keeps_with (c : Container) (body : St A) :
  keeps_cache body -> keeps_cache (with_ c body).
Proof.
  intros Hb w p. unfold with_.
  specialize (Hb w (mkProc (resource_cache p) c (page p) (calls p))).
  destruct (body w _) as [o p']. exact Hb.
Qed.

Lemma keeps_if (b : bool) (x y : St A) :
  keeps_cache x -> keeps_cache y -> keeps_cache (if b then x else y).
Proof. destruct b; auto. Qed.

End KeepsCache.

Lemma keeps_draw_in (c : Container) (e : Element) : keeps_cache (draw_in c e).
Proof. intros w p. reflexivity. Qed.

Lemma keeps_draw (e : Element) : keeps_cache (draw e).
Proof. intros w p. reflexivity. Qed.

Lemma keeps_stop : keeps_cache st.stop.
Proof. intros w p. reflexivity. Qed.

Lemma keeps_button (label : string) : keeps_cache (st.button label).
Proof. intros w p. reflexivity. Qed.

Lemma keeps_progress (value : float) : keeps_cache (st.progress value).
Proof.
  intros w p. unfold st.progress.
  destruct (st.check_float_between value 0 1); reflexivity.
Qed.

Lemma keeps_get_user_input : keeps_cache get_user_input.
Proof. intros w p. rewrite get_user_input_run. reflexivity. Qed.

Lemma keeps_invoke_predict (model : option Model) (df : pd.DataFrame) :
  keeps_cache (invoke_predict model df).
Proof.
  intros w p. unfold invoke_predict, eval.
  destruct model as [m|]; [destruct (predict m df)|]; reflexivity.
Qed.

Lemma keeps_invoke_predict_proba (model : option Model) (df : pd.DataFrame) :
  keeps_cache (invoke_predict_proba model df).
Proof.
  intros w p. unfold invoke_predict_proba, eval.
  destruct model as [m|]; [destruct (predict_proba m df)|]; reflexivity.
Qed.

Create HintDb keeps.
#[local] Hint Resolve keeps_ret keeps_eval keeps_bind keeps_try_except
  keeps_with keeps_if keeps_draw_in keeps_draw keeps_stop keeps_button
  keeps_progress keeps_get_user_input keeps_invoke_predict
  keeps_invoke_predict_proba : keeps.

Ltac keeps :=
  unfold predict_and_show, on_prediction_error, recommend, st.spinner,
    st.title, st.subheader, st.markdown, st.markdown_html, st.error, st.info,
    st.success, st.warning, st.balloons, st.metric, st.columns;
  repeat first
    [ apply keeps_bind; [|intros ?]
    | apply keeps_try_except; [|intros ?]
    | apply keeps_with
    | apply keeps_if
    | solve [auto with keeps] ].

Lemma keeps_predict_and_show (model : option Model) (df : pd.DataFrame) :
  keeps_cache (predict_and_show model df).
Proof. keeps. Qed.

Lemma keeps_on_prediction_error (e : Exception) :
  keeps_cache (on_prediction_error e).
Proof. keeps. Qed.

Lemma sets_bind_l {A B} f (c : St A) (k : A -> St B) :
  sets_cache f c -> (forall a, keeps_cache (k a)) -> sets_cache f (bind c k).
Proof.
  intros Hc Hk w p. unfold bind.
  specialize (Hc w p). destruct (c w p) as [[a|e|] p']; simpl in *.
  - rewrite (Hk a w p'). exact Hc.
  - exact Hc.
  - exact Hc.
Qed.

Lemma sets_load_model : sets_cache cache_after load_model.
Proof. intros w p. rewrite load_model_run. reflexivity. Qed.

Lemma bind_run {A B} (c : St A) (k : A -> St B) (w : World) (p : Proc) :
  bind c k w p =
  match c w p with
  | (Return a, p') => k a w p'
  | (Raise e, p') => (Raise e, p')
  | (Stop, p') => (Stop, p')
  end.
Proof. reflexivity. Qed.

(** A run changes the cache through [load_model] only. *)
Lemma run_cache (w : World) (cache : option (option Model * list Element)) :
  resource_cache (snd (run w cache)) = cache_after w cache.
Proof.
  unfold run, script, main.
  rewrite bind_run. unfold st.set_page_config at 1, draw at 1, draw_in at 1.
  cbv beta iota.
  rewrite bind_run. unfold st.markdown_html at 1, draw at 1, draw_in at 1.
  cbv beta iota.
  rewrite bind_run. unfold st.title at 1, draw at 1, draw_in at 1.
  cbv beta iota.
  rewrite bind_run. unfold st.markdown at 1, draw at 1, draw_in at 1.
  cbv beta iota.
  match goal with
  | |- resource_cache (snd (bind load_model ?k w ?p)) = _ =>
      apply (sets_bind_l cache_after load_model k sets_load_model)
  end.
  intros model. keeps.
Qed.

(** Every cache a process can hold stores notices only. *)
Lemma reachable_cache_ok (cache : option (option Model * list Element)) :
  reachable cache -> cache_ok cache.
Proof.
  induction 1 as [|w cache Hr IH].
  - exact I.
  - rewrite run_cache. exact (proj2 (load_model_notices w cache IH)).
Qed.

(** ** Runs of the script *)

(** Symbolic execution of the script: the monad and the Streamlit calls
    unfold; the loader, the form and the model stay as they are, to be
    rewritten with what is known of them. *)
Ltac exec :=
  cbv beta iota zeta delta
    [bind ret eval try_except draw draw_in with_ plain is_None fst snd
     resource_cache container page calls
     st.set_page_config st.title st.subheader st.markdown st.markdown_html
     st.error st.info
     st.success st.warning st.balloons st.metric st.columns st.button
     st.spinner st.stop predict_and_show on_prediction_error
     invoke_predict invoke_predict_proba].

Lemma profile_summary_built (r : RawFields) (df : pd.DataFrame) :
  build r = Ok df -> exists t, profile_summary df = Ok t.
Proof.
  rewrite build_eq.
  destruct (low_contact (campaign r)) as [c|e]; [|discriminate].
  intros H. injection H as <-. eexists. reflexivity.
Qed.

(** The button does not change what the loader and the form read. *)
Lemma with_button_same_inputs (w : World) (clicked : string -> bool)
  (cache : option (option Model * list Element)) :
  load_result (with_button w clicked) cache = load_result w cache
  /\ load_notices (with_button w clicked) cache = load_notices w cache
  /\ cache_after (with_button w clicked) cache = cache_after w cache
  /\ input_frame (with_button w clicked) = input_frame w
  /\ form_page (with_button w clicked) = form_page w.
Proof.
  assert (L : load_model (with_button w clicked) (fresh cache)
              = load_model w (fresh cache)).
  { unfold load_model, st.cache_resource, fresh.
    cbn [resource_cache container page calls].
    destruct cache as [[v els]|]; [reflexivity|].
    unfold load_model_body, bind, os.path.exists_, joblib.load, try_except,
      eval, with_button.
    cbv beta iota delta [path_exists joblib_load].
    destruct w as [ex ld ws bc].
    destruct (ex MODEL_PATH); cbn [negb];
      [destruct (ld MODEL_PATH) as [m|e]|]; reflexivity. }
  unfold load_result, load_notices, cache_after. rewrite L.
  repeat split; reflexivity.
Qed.

(** Once the cache is filled, loading again in the same file system
    returns, draws and stores the same. *)
Lemma load_model_settled (w : World)
  (cache : option (option Model * list Element)) :
  load_result w (cache_after w cache) = load_result w cache
  /\ load_notices w (cache_after w cache) = load_notices w cache
  /\ cache_after w (cache_after w cache) = cache_after w cache.
Proof.
  unfold load_result, load_notices, cache_after, fresh, load_model,
    st.cache_resource.
  cbn [resource_cache container page calls].
  destruct cache as [[v els]|].
  - cbn [fst snd resource_cache page app]. repeat split; reflexivity.
  - unfold load_model_body, bind, os.path.exists_, joblib.load, try_except,
      st.error, st.info, draw, draw_in, ret, eval.
    cbn [resource_cache container page calls].
    destruct (path_exists w MODEL_PATH); cbn [negb];
      [destruct (joblib_load w MODEL_PATH) as [m|e]|];
      repeat split; reflexivity.
Qed.

(** The steps of a run from the top of the script to the button, for a
    model that loaded and a frame that was built. *)
Ltac run_to_button Hl Hf Ht :=
  unfold run, script, main; exec;
  rewrite load_model_run; exec; rewrite Hl; exec;
  rewrite get_user_input_run, Hf; exec;
  rewrite Ht; exec.

(** The page of a run that no click on the button triggered. *)
Lemma unclicked_run (w : World) (cache : option (option Model * list Element))
  (m : Model) (df : pd.DataFrame) (t : Text) :
  load_result w cache = Return (Some m) ->
  input_frame w = Ok df ->
  profile_summary df = Ok t ->
  button_clicked w "🔮 Predict Subscription" = false ->
  run w cache =
  (Return tt,
   mkProc (cache_after w cache) Main
     (page_until_button w cache t ++ footer) []).
Proof.
  intros Hl Hf Ht Hb.
  run_to_button Hl Hf Ht. rewrite Hb. exec.
  unfold page_until_button, page_head, footer, plain.
  rewrite <- !app_assoc. reflexivity.
Qed.

Lemma idle_run (w : World) (cache : option (option Model * list Element))
  (m : Model) (df : pd.DataFrame) (t : Text) :
  load_result w cache = Return (Some m) ->
  input_frame w = Ok df ->
  profile_summary df = Ok t ->
  run (idle w) cache =
  (Return tt,
   mkProc (cache_after w cache) Main
     (page_until_button w cache t ++ footer) []).
Proof.
  intros Hl Hf Ht.
  destruct (with_button_same_inputs w (fun _ => false) cache)
    as (Il & In_ & Ic & If_ & Ip).
  fold (idle w) in Il, In_, Ic, If_, Ip.
  rewrite <- Il in Hl. rewrite <- If_ in Hf.
  rewrite (unclicked_run (idle w) cache m df t Hl Hf Ht eq_refl).
  unfold page_until_button. rewrite In_, Ic, Ip. reflexivity.
Qed.

(** The page of a run in which the model rejects the frame. *)
Lemma rejected_run (w : World) (cache : option (option Model * list Element))
  (m : Model) (df : pd.DataFrame) (t : Text) (e : Exception) :
  load_result w cache = Return (Some m) ->
  input_frame w = Ok df ->
  profile_summary df = Ok t ->
  button_clicked w "🔮 Predict Subscription" = true ->
  (predict m df = Err e
   \/ exists l ls, predict m df = Ok (l :: ls) /\ predict_proba m df = Err e) ->
  exists cs,
    run w cache =
    (Return tt,
     mkProc (cache_after w cache) Main
       (page_until_button w cache t ++ prediction_error_notice e ++ footer)
       cs).
Proof.
  intros Hl Hf Ht Hb Hp.
  destruct Hp as [Hp|(l & ls & Hp & Hq)]; eexists.
  - run_to_button Hl Hf Ht. rewrite Hb. exec. rewrite Hp. exec.
    unfold page_until_button, footer, prediction_error_notice, page_head,
      plain.
    rewrite <- !app_assoc. reflexivity.
  - run_to_button Hl Hf Ht. rewrite Hb. exec. rewrite Hp. exec.
    unfold np.getitem. cbn [nth_error]. exec. rewrite Hq. exec.
    unfold page_until_button, footer, prediction_error_notice, page_head,
      plain.
    rewrite <- !app_assoc. reflexivity.
Qed.

(** X6. A prediction that goes through adds, under the button, the verdict,
    the probability, the progress bar and the box of the band of the
    probability, in this order, to the page the same form shows without
    the click; the run ends normally. *)
Lemma prediction_shows_band
  (w : World) (cache : option (option Model * list Element))
  (m : Model) (df : pd.DataFrame) (l : Scalar) (ls : list Scalar)
  (rows : list (list float)) (p : float) :
  load_result w cache = Return (Some m) ->
  input_frame w = Ok df ->
  button_clicked w "🔮 Predict Subscription" = true ->
  predict m df = Ok (l :: ls) ->
  predict_proba m df = Ok rows ->
  np.getitem2 rows 0 1 = Ok p ->
  in_unit_interval p = true ->
  exists pre q q',
    run (idle w) cache = (Return tt, q)
    /\ run w cache = (Return tt, q')
    /\ page q = (pre ++ footer)%list
    /\ page q' = (pre ++ results_shown l p ++ footer)%list.
Proof.
  intros Hl Hf Hb Hp Hq Hi Hu.
  destruct (profile_summary_built (form_fields w) df Hf) as [t Ht].
  exists (page_until_button w cache t).
  rewrite (idle_run w cache m df t Hl Hf Ht).
  unfold results_shown.
  destruct (py_eq l (Int 1)) eqn:Hv;
    (eexists; eexists; split; [reflexivity|]; split;
     [ run_to_button Hl Hf Ht; rewrite Hb; exec; rewrite Hp; exec;
       unfold np.getitem at 1; cbn [nth_error]; exec; rewrite Hq; exec;
       rewrite Hi; exec; rewrite Hv; exec;
       unfold st.progress, st.check_float_between;
       unfold in_unit_interval in Hu; rewrite Hu; cbn [orb];
       exec; rewrite recommend_draws_tier; exec; reflexivity
     | cbn [page]; split; [reflexivity|];
       unfold page_until_button, footer, page_head, plain;
       cbn [map app]; rewrite <- !app_assoc; reflexivity ]).
Qed.

Lemma prediction_shows_band_witness :
  let m := constant_model 1 0.75%float in
  let w := clicked_world m in
  let df := frame_of form_defaults in
  load_result w None = Return (Some m)
  /\ input_frame w = Ok df
  /\ button_clicked w "🔮 Predict Subscription" = true
  /\ predict m df = Ok [Int 1]
  /\ predict_proba m df = Ok [[(1 - 0.75)%float; 0.75%float]]
  /\ np.getitem2 [[(1 - 0.75)%float; 0.75%float]] 0 1 = Ok 0.75%float
  /\ in_unit_interval 0.75 = true
  /\ exists pre q q',
       run (idle w) None = (Return tt, q)
       /\ run w None = (Return tt, q')
       /\ page q = (pre ++ footer)%list
       /\ page q' = (pre ++ results_shown (Int 1) 0.75 ++ footer)%list.
Proof.
  repeat (split; [reflexivity|]).
  apply (prediction_shows_band
           (clicked_world (constant_model 1 0.75%float)) None
           (constant_model 1 0.75%float) (frame_of form_defaults)
           (Int 1) [] [[(1 - 0.75)%float; 0.75%float]] 0.75%float);
    reflexivity.
Defined.


(** No mark of a result is drawn outside the second column. *)
Lemma no_result_in_main (els : list Element) :
  filter is_result (map (pair Main) els) = [].
Proof.
  induction els as [|x l IH]; [reflexivity | exact IH].
Qed.

Lemma no_result_until_button (w : World)
  (cache : option (option Model * list Element)) (t : Text) :
  filter is_result (page_until_button w cache t) = [].
Proof.
  unfold page_until_button. rewrite !filter_app, no_result_in_main.
  reflexivity.
Qed.

(** C6, as the code has it. When the button is pressed and [predict]
    raises on the frame, or [predict] returns and [predict_proba] raises,
    the run ends normally and its page is the page the same form shows
    without the click, with two boxes added under the button: the error
    with the text of the exception, and the advice to check the features.
    No part of a result is drawn (no success or warning box, balloons,
    metric or progress bar under the button), the model is not called in
    the run without the click, and the cache is left as that run leaves
    it. A run before on the same form and file system showed the page
    without the click or this very page. What an earlier run showed for
    other inputs is not kept: each run draws the page anew. *)
Theorem prediction_error_keeps_page
  (w : World) (cache : option (option Model * list Element))
  (m : Model) (df : pd.DataFrame) (e : Exception) :
  load_result w cache = Return (Some m) ->
  input_frame w = Ok df ->
  button_clicked w "🔮 Predict Subscription" = true ->
  (predict m df = Err e
   \/ exists l ls, predict m df = Ok (l :: ls) /\ predict_proba m df = Err e) ->
  exists pre q q',
    run (idle w) cache = (Return tt, q)
    /\ run w cache = (Return tt, q')
    /\ page q = (pre ++ footer)%list
    /\ page q' = (pre ++ prediction_error_notice e ++ footer)%list
    /\ filter is_result (page q') = []
    /\ calls q = []
    /\ resource_cache q' = resource_cache q
    /\ (forall clicked cache0,
          cache = resource_cache (snd (run (with_button w clicked) cache0)) ->
          page (snd (run (with_button w clicked) cache0)) = page q
          \/ page (snd (run (with_button w clicked) cache0)) = page q').
Proof.
  intros Hl Hf Hb Hp.
  destruct (profile_summary_built (form_fields w) df Hf) as [t Ht].
  exists (page_until_button w cache t).
  rewrite (idle_run w cache m df t Hl Hf Ht).
  destruct (rejected_run w cache m df t e Hl Hf Ht Hb Hp) as [cs Hrun].
  rewrite Hrun.
  eexists. eexists. split; [reflexivity|]. split; [reflexivity|].
  cbn [page calls resource_cache].
  split; [reflexivity|]. split; [reflexivity|].
  split; [rewrite !filter_app, no_result_until_button; reflexivity|].
  split; [reflexivity|]. split; [reflexivity|].
  intros clicked cache0 Hc.
  rewrite run_cache in Hc.
  destruct (with_button_same_inputs w clicked cache0)
    as (Il & In_ & Ic & If_ & Ip).
  destruct (load_model_settled w cache0) as (Sl & Sn & _).
  rewrite Ic in Hc. subst cache.
  assert (Hl0 : load_result (with_button w clicked) cache0
                = Return (Some m)).
  { rewrite Il, <- Sl. exact Hl. }
  assert (Hf0 : input_frame (with_button w clicked) = Ok df).
  { rewrite If_. exact Hf. }
  assert (Hpage : page_until_button (with_button w clicked) cache0 t
                  = page_until_button w (cache_after w cache0) t).
  { unfold page_until_button. rewrite In_, Ip, Sn. reflexivity. }
  destruct (button_clicked (with_button w clicked) "🔮 Predict Subscription")
    eqn:Hb0.
  - right.
    destruct (rejected_run _ cache0 m df t e Hl0 Hf0 Ht Hb0 Hp) as [cs0 H0].
    rewrite H0. cbn [snd page]. rewrite Hpage. reflexivity.
  - left.
    rewrite (unclicked_run _ cache0 m df t Hl0 Hf0 Ht Hb0).
    cbn [snd page]. rewrite Hpage. reflexivity.
Qed.

Lemma prediction_error_keeps_page_witness :
  let w := clicked_world rejecting_model in
  let cache := cache_after_first_run rejecting_model in
  let e := mkException "ValueError" "columns are missing" in
  load_result w cache = Return (Some rejecting_model)
  /\ input_frame w = Ok (frame_of form_defaults)
  /\ button_clicked w "🔮 Predict Subscription" = true
  /\ (predict rejecting_model (frame_of form_defaults) = Err e
      \/ exists l ls,
           predict rejecting_model (frame_of form_defaults) = Ok (l :: ls)
           /\ predict_proba rejecting_model (frame_of form_defaults) = Err e)
  /\ exists pre q q',
       run (idle w) cache = (Return tt, q)
       /\ run w cache = (Return tt, q')
       /\ page q = (pre ++ footer)%list
       /\ page q' = (pre ++ prediction_error_notice e ++ footer)%list
       /\ filter is_result (page q') = []
       /\ calls q = []
       /\ resource_cache q' = resource_cache q
       /\ (forall clicked cache0,
             cache = resource_cache (snd (run (with_button w clicked) cache0)) ->
             page (snd (run (with_button w clicked) cache0)) = page q
             \/ page (snd (run (with_button w clicked) cache0)) = page q').
Proof.
  split; [reflexivity|]. split; [reflexivity|]. split; [reflexivity|].
  split; [left; reflexivity|].
  apply (prediction_error_keeps_page (clicked_world rejecting_model)
           (cache_after_first_run rejecting_model)
           rejecting_model (frame_of form_defaults)
           (mkException "ValueError" "columns are missing"));
    [reflexivity | reflexivity | reflexivity | left; reflexivity].
Defined.

(** C6, as the specification words it, fails: results on display do not
    survive a failing prediction on other inputs. A first run with two
    contacts shows the HIGH box; the next run, with seven contacts, finds
    the model in the cache, builds its frame, has the button clicked and
    sees [predict] raise: it ends normally with the error box, and the
    HIGH box, the metric and the progress bar of the first run are
    gone. *)
Lemma prediction_error_drops_earlier_results :
  let earlier := run (contacted 2) None in
  let cache := resource_cache (snd earlier) in
  let later := run (contacted 7) cache in
  let df := frame_of (with_contact_history form_defaults 7 999 "nonexistent") in
  let e := mkException "ValueError" "Found unknown categories" in
  fst earlier = Return tt
  /\ In (Column 1, SuccessBox (plain HIGH_PRIORITY)) (page (snd earlier))
  /\ filter is_result (page (snd earlier)) <> []
  /\ load_result (contacted 7) cache = Return (Some picky_model)
  /\ input_frame (contacted 7) = Ok df
  /\ button_clicked (contacted 7) "🔮 Predict Subscription" = true
  /\ predict picky_model df = Err e
  /\ fst later = Return tt
  /\ In (Column 1, ErrorBox [Lit "Prediction error: "; Lit (str e)])
        (page (snd later))
  /\ ~ In (Column 1, SuccessBox (plain HIGH_PRIORITY)) (page (snd later))
  /\ filter is_result (page (snd later)) = [].
Proof.
  cbv zeta.
  split; [vm_compute; reflexivity|].
  split; [vm_compute; repeat (try (left; reflexivity); right)|].
  split; [vm_compute; discriminate|].
  split; [vm_compute; reflexivity|].
  split; [vm_compute; reflexivity|].
  split; [reflexivity|].
  split; [vm_compute; reflexivity|].
  split; [vm_compute; reflexivity|].
  split; [vm_compute; repeat (try (left; reflexivity); right)|].
  assert (Hnone :
    filter is_result
      (page (snd (run (contacted 7)
                    (resource_cache (snd (run (contacted 2) None))))))
    = []) by (vm_compute; reflexivity).
  split; [|exact Hnone].
  intros H.
  pose proof (proj2 (filter_In is_result _ _) (conj H eq_refl)) as H'.
  rewrite Hnone in H'. exact H'.
Qed.


(** ** The run without a model *)

Lemma notices_are_no_buttons (c : Container) (els : list Element) :
  forallb is_notice els = true ->
  forallb (fun ce => negb (is_button (snd ce))) (map (pair c) els) = true.
Proof.
  induction els as [|e els IH]; simpl; [reflexivity|].
  intros H. apply andb_prop in H. destruct H as [He Hs].
  rewrite (IH Hs), andb_true_r.
  destruct e; simpl in *; congruence.
Qed.

(** C8. In any state a process can reach, a run in which [load_model]
    returns [None] stops right after the notices of the loader: the page
    holds its head (settings, style sheet, title, rule) and those notices,
    no button is drawn, and no method of the model is invoked. *)
Theorem absent_model_stops_run
  (w : World) (cache : option (option Model * list Element)) :
  reachable cache ->
  load_result w cache = Return None ->
  exists q,
    run w cache = (Stop, q)
    /\ page q = (page_head ++ map (pair Main) (load_notices w cache))%list
    /\ forallb (fun ce => negb (is_button (snd ce))) (page q) = true
    /\ calls q = [].
Proof.
  intros Hr Hl.
  pose proof (reachable_cache_ok cache Hr) as Hok.
  destruct (load_model_notices w cache Hok) as [Hn _].
  eexists. split; [|split; [|split]].
  - unfold run, script, main. exec. rewrite load_model_run. exec. rewrite Hl. exec.
    reflexivity.
  - reflexivity.
  - cbn [page]. rewrite !forallb_app.
    rewrite (notices_are_no_buttons Main _ Hn). reflexivity.
  - reflexivity.
Qed.

Lemma absent_model_stops_run_witness :
  reachable None
  /\ load_result no_artifact None = Return None
  /\ exists q,
       run no_artifact None = (Stop, q)
       /\ page q
          = (page_head ++ map (pair Main) (load_notices no_artifact None))%list
       /\ forallb (fun ce => negb (is_button (snd ce))) (page q) = true
       /\ calls q = [].
Proof.
  split; [exact reachable_start|]. split; [reflexivity|].
  apply (absent_model_stops_run no_artifact None);
    [exact reachable_start | reflexivity].
Defined.

(** With a model the button is drawn: the stop of the absent case is what
    withholds it. *)
Lemma present_model_draws_button :
  existsb (fun ce => is_button (snd ce))
    (page (snd (run (idle (clicked_world rejecting_model)) None))) = true.
Proof. reflexivity. Qed.

(** A failure to load stays for the life of the process: once a run found
    no artifact, later runs stop with the same notice even when the
    artifact is there, since the cache also stores [None]. *)
Lemma absent_model_stays_absent (m : Model) :
  let cache := resource_cache (snd (run no_artifact None)) in
  reachable cache
  /\ load_result (clicked_world m) cache = Return None
  /\ fst (run (clicked_world m) cache) = Stop.
Proof.
  split; [apply reachable_run, reachable_start|].
  split; reflexivity.
Qed.

(** ** Sample runs *)

(** A first run with the untouched form and a pipeline that answers 1
    with probability 0.75: the HIGH box closes the results. *)
Example run_high_priority :
  let w := clicked_world (constant_model 1 0.75%float) in
  skipn 33 (page (snd (run w None)))
  = (results_shown (Int 1) 0.75%float ++ footer)%list
  /\ In (Column 1, SuccessBox (plain HIGH_PRIORITY)) (page (snd (run w None)))
  /\ calls (snd (run w None))
     = [PredictCall (frame_of form_defaults);
        PredictProbaCall (frame_of form_defaults)].
Proof.
  split; [|split].
  - vm_compute. reflexivity.
  - vm_compute. repeat (try (left; reflexivity); right).
  - reflexivity.
Qed.

(** The same at exactly 0.7 and at exactly 0.4. *)
Example run_at_cutoffs :
  In (Column 1, WarningBox (plain MEDIUM_PRIORITY))
    (page (snd (run (clicked_world (constant_model 0 0.7%float)) None)))
  /\ In (Column 1, InfoBox (plain LOW_PRIORITY))
       (page (snd (run (clicked_world (constant_model 0 0.4%float)) None))).
Proof.
  split; vm_compute; repeat (try (left; reflexivity); right).
Qed.

(** ** The loader across calls *)

(** X1. Once [load_model] has been called, every later call returns what
    that call returned, redraws what it drew and leaves the cache as it
    is, whatever the file system holds by then: the file is looked at
    once per process, and a failure to load is kept like a success. *)
Theorem load_model_first_result_stays
  (w1 w2 : World) (cache : option (option Model * list Element)) :
  load_result w2 (cache_after w1 cache) = load_result w1 cache
  /\ load_notices w2 (cache_after w1 cache) = load_notices w1 cache
  /\ cache_after w2 (cache_after w1 cache) = cache_after w1 cache.
Proof.
  unfold load_result, load_notices, cache_after, fresh, load_model,
    st.cache_resource.
  cbn [resource_cache container page calls].
  destruct cache as [[v els]|].
  - cbn [fst snd resource_cache page app]. repeat split; reflexivity.
  - unfold load_model_body, bind, os.path.exists_, joblib.load, try_except,
      st.error, st.info, draw, draw_in, ret, eval.
    cbn [resource_cache container page calls].
    destruct (path_exists w1 MODEL_PATH); cbn [negb];
      [destruct (joblib_load w1 MODEL_PATH) as [m|e]|];
      repeat split; reflexivity.
Qed.

(** The loader keeps the invariant that a stored [None] comes with its
    error box, and a call that returns [None] draws one. *)
Lemma load_model_reports (w : World)
  (cache : option (option Model * list Element)) :
  cache_reports cache ->
  cache_reports (cache_after w cache)
  /\ (load_result w cache = Return None ->
      existsb is_error_box (load_notices w cache) = true).
Proof.
  unfold load_result, load_notices, cache_after, fresh, load_model,
    st.cache_resource.
  cbn [resource_cache container page calls].
  destruct cache as [[v els]|].
  - cbn [cache_reports fst snd page resource_cache app].
    rewrite map_snd_pair. intros H. split; [exact H|].
    intros Hv. injection Hv as ->. exact H.
  - intros _.
    unfold load_model_body, bind, os.path.exists_, joblib.load, try_except,
      st.error, st.info, draw, draw_in, ret, eval.
    cbn [resource_cache container page calls].
    destruct (path_exists w MODEL_PATH); cbn [negb];
      [destruct (joblib_load w MODEL_PATH) as [m|e]|];
      split; try reflexivity; try exact I; discriminate.
Qed.

Lemma reachable_cache_reports (cache : option (option Model * list Element)) :
  reachable cache -> cache_reports cache.
Proof.
  induction 1 as [|w cache Hr IH].
  - exact I.
  - rewrite run_cache. exact (proj1 (load_model_reports w cache IH)).
Qed.


(** X2. A missing or broken model is never silent. In any state a process
    can reach, a run in which [load_model] returns [None] stops with an
    error box on the page, on the first such run and on every later one,
    where the box is replayed from the cache. *)
Theorem absent_model_always_reported
  (w : World) (cache : option (option Model * list Element)) :
  reachable cache ->
  load_result w cache = Return None ->
  fst (run w cache) = Stop
  /\ existsb (fun ce => is_error_box (snd ce)) (page (snd (run w cache)))
     = true.
Proof.
  intros Hr Hl.
  pose proof (reachable_cache_reports cache Hr) as Hc.
  destruct (load_model_reports w cache Hc) as [_ He].
  specialize (He Hl).
  assert (Hrun : run w cache =
                 (Stop,
                  mkProc (cache_after w cache) Main
                    (page_head ++ map (pair Main) (load_notices w cache)) [])).
  { unfold run, script, main. exec. rewrite load_model_run. exec.
    rewrite Hl. exec. reflexivity. }
  rewrite Hrun. cbn [fst snd page]. split; [reflexivity|].
  rewrite existsb_app. apply orb_true_iff. right.
  clear - He. induction (load_notices w cache) as [|x l IH]; simpl in *.
  - discriminate.
  - apply orb_true_iff in He. apply orb_true_iff.
    destruct He as [He|He]; [left; exact He | right; exact (IH He)].
Qed.

Lemma absent_model_always_reported_witness :
  let cache := resource_cache (snd (run no_artifact None)) in
  let w := clicked_world rejecting_model in
  reachable cache
  /\ load_result w cache = Return None
  /\ fst (run w cache) = Stop
  /\ existsb (fun ce => is_error_box (snd ce)) (page (snd (run w cache)))
     = true.
Proof.
  split; [exact (reachable_run no_artifact None reachable_start)|].
  split; [reflexivity|].
  apply (absent_model_always_reported (clicked_world rejecting_model)
           (resource_cache (snd (run no_artifact None))));
    [exact (reachable_run no_artifact None reachable_start) | reflexivity].
Defined.

(** ** The shape of every run *)

(** The script around the [try] statement. *)
Ltac exec_outer :=
  cbv beta iota zeta delta
    [bind ret eval draw draw_in with_ plain is_None fst snd
     resource_cache container page calls
     st.set_page_config st.title st.subheader st.markdown st.markdown_html
     st.columns st.button st.stop].

(** The [try] statement always returns: it draws into the current
    container and calls the model, and touches nothing else. *)
Lemma try_block_run (w : World) (m : Model) (df : pd.DataFrame) (p : Proc) :
  try_block m df w p =
  (Return tt,
   mkProc (resource_cache p) (container p)
     (page p ++ map (pair (container p)) (prediction_drawn w m df))
     (calls p ++ prediction_calls w m df)).
Proof.
  destruct p as [cache cont pg cs].
  unfold prediction_drawn, prediction_calls, try_block.
  cbv beta iota zeta delta
    [bind ret eval try_except draw draw_in plain fst snd
     resource_cache container page calls
     st.subheader st.markdown st.error st.info recommend st.progress
     st.success st.warning st.balloons st.metric
     st.spinner predict_and_show on_prediction_error
     invoke_predict invoke_predict_proba].
  destruct (predict m df) as [[|l ls]|e];
    unfold np.getitem; cbn [nth_error]; cbv beta iota;
    [ | destruct (predict_proba m df) as [rows|e];
        [ destruct (np.getitem2 rows 0 1) as [pr|e]; cbv beta iota;
          [ destruct (py_eq l (Int 1)); cbv beta iota;
            destruct (st.check_float_between pr 0 1); cbv beta iota;
            destruct (F64.gt pr 0.7); cbv beta iota;
            try (destruct (F64.gt pr 0.4); cbv beta iota)
          | ]
        | ]
    | ];
    cbn [map snd app]; rewrite <- ?app_assoc; reflexivity.
Qed.

(** The three ways a run ends. *)
Lemma run_stopped (w : World) (cache : option (option Model * list Element)) :
  load_result w cache = Return None ->
  run w cache =
  (Stop,
   mkProc (cache_after w cache) Main
     (page_head ++ map (pair Main) (load_notices w cache)) []).
Proof.
  intros Hl. unfold run, script, main. exec_outer.
  rewrite load_model_run. exec_outer. rewrite Hl. exec_outer. reflexivity.
Qed.

Lemma run_raised (w : World) (cache : option (option Model * list Element))
  (m : Model) (e : Exception) :
  load_result w cache = Return (Some m) ->
  input_frame w = Err e ->
  run w cache =
  (Raise e,
   mkProc (cache_after w cache) Main
     (page_head ++ map (pair Main) (load_notices w cache) ++ form_page w) []).
Proof.
  intros Hl Hf. unfold run, script, main. exec_outer.
  rewrite load_model_run. exec_outer. rewrite Hl. exec_outer.
  rewrite get_user_input_run, Hf. exec_outer.
  unfold page_head, plain. rewrite <- !app_assoc. reflexivity.
Qed.

Lemma run_returned (w : World) (cache : option (option Model * list Element))
  (m : Model) (df : pd.DataFrame) (t : Text) :
  load_result w cache = Return (Some m) ->
  input_frame w = Ok df ->
  profile_summary df = Ok t ->
  run w cache =
  (Return tt,
   mkProc (cache_after w cache) Main
     (page_until_button w cache t
      ++ (if button_clicked w "🔮 Predict Subscription"
          then map (pair (Column 1)) (prediction_drawn w m df)
          else [])
      ++ footer)
     (if button_clicked w "🔮 Predict Subscription"
      then prediction_calls w m df
      else [])).
Proof.
  intros Hl Hf Ht. unfold run, script, main. exec_outer.
  rewrite load_model_run. exec_outer. rewrite Hl. exec_outer.
  rewrite get_user_input_run, Hf. exec_outer.
  rewrite Ht. exec_outer.
  change (try_except (predict_and_show (Some m) df) on_prediction_error)
    with (try_block m df).
  destruct (button_clicked w "🔮 Predict Subscription").
  - rewrite try_block_run. exec_outer.
    unfold page_until_button, page_head, footer, plain.
    rewrite <- !app_assoc. reflexivity.
  - exec_outer.
    unfold page_until_button, page_head, footer, plain.
    rewrite <- !app_assoc. reflexivity.
Qed.

(** The calls of the [try] statement: [predict] first, and
    [predict_proba] when [predict] returned a label to read. *)
Lemma prediction_calls_eq (w : World) (m : Model) (df : pd.DataFrame) :
  prediction_calls w m df =
  PredictCall df ::
  match predict m df with
  | Ok (_ :: _) => [PredictProbaCall df]
  | _ => []
  end.
Proof.
  unfold prediction_calls, try_block.
  cbv beta iota zeta delta
    [bind ret eval try_except draw draw_in plain fst snd
     resource_cache container page calls
     st.subheader st.markdown st.error st.info recommend st.progress
     st.success st.warning st.balloons st.metric
     st.spinner predict_and_show on_prediction_error
     invoke_predict invoke_predict_proba].
  destruct (predict m df) as [[|l ls]|e];
    unfold np.getitem; cbn [nth_error]; cbv beta iota;
    [ | destruct (predict_proba m df) as [rows|e];
        [ destruct (np.getitem2 rows 0 1) as [pr|e]; cbv beta iota;
          [ destruct (py_eq l (Int 1)); cbv beta iota;
            destruct (st.check_float_between pr 0 1); cbv beta iota;
            destruct (F64.gt pr 0.7); cbv beta iota;
            try (destruct (F64.gt pr 0.4); cbv beta iota)
          | ]
        | ]
    | ];
    reflexivity.
Qed.

(** X3. The model is called only in a run that the button triggered, on
    the frame of the form and in a fixed order: [predict] once, then
    [predict_proba] once when [predict] returned at least one label. A
    run without the click, without a model or without a frame calls
    nothing. *)
Theorem model_calls_of_a_run
  (w : World) (cache : option (option Model * list Element)) :
  calls (snd (run w cache)) =
  match load_result w cache, input_frame w with
  | Return (Some m), Ok df =>
      if button_clicked w "🔮 Predict Subscription"
      then PredictCall df ::
           match predict m df with
           | Ok (_ :: _) => [PredictProbaCall df]
           | _ => []
           end
      else []
  | _, _ => []
  end.
Proof.
  destruct (load_result_returns w cache) as [[m|] Hl]; rewrite Hl.
  - destruct (input_frame w) as [df|e] eqn:Hf.
    + destruct (profile_summary_built (form_fields w) df Hf) as [t Ht].
      rewrite (run_returned w cache m df t Hl Hf Ht). cbn [snd calls].
      rewrite prediction_calls_eq. reflexivity.
    + rewrite (run_raised w cache m e Hl Hf). reflexivity.
  - rewrite (run_stopped w cache Hl). reflexivity.
Qed.

(** The only exception [build] raises is the [TypeError] of the
    comparison in the lambda. *)
Lemma build_error_is_type_error (r : RawFields) (e : Exception) :
  build r = Err e ->
  e = TypeError ("'<' not supported between instances of '"
                 ++ type_name (campaign r) ++ "' and 'int'")
  /\ (campaign r = NoneV \/ exists s, campaign r = Str s).
Proof.
  rewrite build_eq. unfold low_contact.
  destruct (campaign r) as [n|x|s|]; simpl; try discriminate.
  - intros H. injection H as <-. split; [reflexivity | right; eauto].
  - intros H. injection H as <-. split; [reflexivity | left; reflexivity].
Qed.

(** The three ways a run ends, by what the loader and the form give. *)
Lemma run_ends (w : World) (cache : option (option Model * list Element)) :
  (load_result w cache = Return None /\ fst (run w cache) = Stop)
  \/ (exists m df, load_result w cache = Return (Some m)
                   /\ input_frame w = Ok df
                   /\ fst (run w cache) = Return tt)
  \/ (exists m e, load_result w cache = Return (Some m)
                  /\ input_frame w = Err e
                  /\ fst (run w cache) = Raise e).
Proof.
  destruct (load_result_returns w cache) as [[m|] Hl].
  - destruct (input_frame w) as [df|e] eqn:Hf.
    + destruct (profile_summary_built (form_fields w) df Hf) as [t Ht].
      right. left. exists m, df.
      split; [exact Hl|]. split; [reflexivity|].
      rewrite (run_returned w cache m df t Hl Hf Ht). reflexivity.
    + right. right. exists m, e.
      split; [exact Hl|]. split; [reflexivity|].
      rewrite (run_raised w cache m e Hl Hf). reflexivity.
  - left. split; [exact Hl|].
    rewrite (run_stopped w cache Hl). reflexivity.
Qed.

(** X4. How a run ends. It stops exactly when [load_model] returned
    [None]. No exception of the model, of the array indexing or of the
    drawing of the results leaves the script: a run ends with an
    exception only when the frame could not be built, and then with the
    [TypeError] of the campaign comparison. With every widget within its
    bounds a run stops or returns. *)
Theorem run_outcome
  (w : World) (cache : option (option Model * list Element)) :
  (fst (run w cache) = Stop <-> load_result w cache = Return None)
  /\ (forall e, fst (run w cache) = Raise e ->
                input_frame w = Err e /\ exc_class e = "TypeError")
  /\ (forallb (fun ce => widget_ok (snd ce)) (form_page w) = true ->
      fst (run w cache) = Stop \/ fst (run w cache) = Return tt).
Proof.
  pose proof (run_ends w cache) as Hcases.
  set (o := fst (run w cache)) in *. clearbody o.
  split; [|split].
  - destruct Hcases as [[Hl Ho]|[(m & df & Hl & Hf & Ho)|(m & e & Hl & Hf & Ho)]];
      rewrite Ho, Hl; split; intros H; try reflexivity; discriminate H.
  - intros e He.
    destruct Hcases as [[Hl Ho]|[(m & df & Hl & Hf & Ho)|(m & e' & Hl & Hf & Ho)]];
      rewrite Ho in He; try discriminate He.
    injection He as ->. split; [exact Hf|].
    destruct (build_error_is_type_error (form_fields w) e Hf) as [-> _].
    reflexivity.
  - intros Hb.
    destruct Hcases as [[Hl Ho]|[(m & df' & Hl & Hf & Ho)|(m & e & Hl & Hf & Ho)]];
      [left; exact Ho | right; exact Ho |].
    exfalso.
    rewrite <- within_bounds_of_widgets in Hb.
    apply within_bounds_campaign in Hb.
    apply int_between_inv in Hb. destruct Hb as (c & Hc & _).
    destruct (build_error_is_type_error (form_fields w) e Hf)
      as [_ [Hn|[s Hs]]]; congruence.
Qed.

(** X5. [build] raises exactly on a campaign count that is text or
    [None], with the [TypeError] Python gives for comparing it with an
    [int]; on an [int] or a [float] it returns a frame, whatever the other
    fields hold. *)
Theorem build_raises_on_non_numbers (r : RawFields) :
  match campaign r with
  | Int _ | Float _ => exists df, build r = Ok df
  | v =>
      build r =
      Err (TypeError ("'<' not supported between instances of '"
                      ++ type_name v ++ "' and 'int'"))
  end.
Proof.
  rewrite build_eq. unfold low_contact.
  destruct (campaign r) as [n|x|s|]; simpl; try reflexivity;
    eexists; reflexivity.
Qed.

(** A run depends on the cache through the loader only. *)
Lemma run_depends_on_load (w : World)
  (c1 c2 : option (option Model * list Element)) :
  load_result w c1 = load_result w c2 ->
  load_notices w c1 = load_notices w c2 ->
  cache_after w c1 = cache_after w c2 ->
  run w c1 = run w c2.
Proof.
  intros Hl Hn Hc. unfold run, script, main. exec_outer.
  rewrite !load_model_run. exec_outer. rewrite Hl, Hn, Hc. reflexivity.
Qed.

(** X7. A rerun in an unchanged world reproduces the run: started from
    the cache a run left, the script ends the same way, draws the same
    page, makes the same calls and leaves the same cache. The notices of
    the loader, drawn once by its body, are replayed on every rerun. *)
Theorem rerun_reproduces_run
  (w : World) (cache : option (option Model * list Element)) :
  run w (resource_cache (snd (run w cache))) = run w cache.
Proof.
  rewrite run_cache.
  destruct (load_model_settled w cache) as (Hl & Hn & Hc).
  apply run_depends_on_load; assumption.
Qed.

(** ** What a prediction shows *)

(** What the [try] statement draws, case by case. *)
Lemma prediction_drawn_eq (w : World) (m : Model) (df : pd.DataFrame) :
  map (pair (Column 1)) (prediction_drawn w m df) =
  match predict m df with
  | Err e => prediction_error_notice e
  | Ok labels =>
      match np.getitem 0 labels 0 with
      | Err e => prediction_error_notice e
      | Ok l =>
          match predict_proba m df with
          | Err e => prediction_error_notice e
          | Ok rows =>
              match np.getitem2 rows 0 1 with
              | Err e => prediction_error_notice e
              | Ok p =>
                  if st.check_float_between p 0 1
                  then results_shown l p
                  else (verdict_and_metric l p
                        ++ prediction_error_notice (progress_error p))%list
              end
          end
      end
  end.
Proof.
  unfold prediction_drawn, try_block.
  cbv beta iota zeta delta
    [bind ret eval try_except draw draw_in plain fst snd
     resource_cache container page calls
     st.subheader st.markdown st.error st.info st.progress
     st.success st.warning st.balloons st.metric
     st.spinner predict_and_show on_prediction_error
     invoke_predict invoke_predict_proba].
  destruct (predict m df) as [[|l ls]|e]; [reflexivity| |reflexivity].
  change (np.getitem 0 (l :: ls) 0) with (Ok l). cbv beta iota.
  destruct (predict_proba m df) as [rows|e]; [|reflexivity].
  destruct (np.getitem2 rows 0 1) as [pr|e]; cbv beta iota; [|reflexivity].
  unfold results_shown, verdict_and_metric.
  destruct (py_eq l (Int 1)); cbv beta iota;
    destruct (st.check_float_between pr 0 1); cbv beta iota;
    rewrite ?recommend_draws_tier; reflexivity.
Qed.

(** The page of a run the button triggered, next to the page of the same
    form without the click. *)
Lemma clicked_run_pages (w : World)
  (cache : option (option Model * list Element))
  (m : Model) (df : pd.DataFrame) :
  load_result w cache = Return (Some m) ->
  input_frame w = Ok df ->
  button_clicked w "🔮 Predict Subscription" = true ->
  exists pre,
    run (idle w) cache
    = (Return tt, mkProc (cache_after w cache) Main (pre ++ footer) [])
    /\ run w cache
       = (Return tt,
          mkProc (cache_after w cache) Main
            (pre ++ map (pair (Column 1)) (prediction_drawn w m df) ++ footer)
            (prediction_calls w m df)).
Proof.
  intros Hl Hf Hb.
  destruct (profile_summary_built (form_fields w) df Hf) as [t Ht].
  exists (page_until_button w cache t).
  rewrite (idle_run w cache m df t Hl Hf Ht).
  rewrite (run_returned w cache m df t Hl Hf Ht), Hb.
  split; reflexivity.
Qed.

(** X8. A probability that the progress bar refuses (a number outside
    [0.0, 1.0] by more than the tolerance, or NaN) leaves part of a
    result on the page: the verdict and the metric are drawn before
    [st.progress] raises, the handler then adds the error with the
    message of Streamlit and the advice, and neither the progress bar nor
    a recommendation follows. The run ends normally. *)
Theorem probability_out_of_range_shows_partial_results
  (w : World) (cache : option (option Model * list Element))
  (m : Model) (df : pd.DataFrame) (l : Scalar) (ls : list Scalar)
  (rows : list (list float)) (p : float) :
  load_result w cache = Return (Some m) ->
  input_frame w = Ok df ->
  button_clicked w "🔮 Predict Subscription" = true ->
  predict m df = Ok (l :: ls) ->
  predict_proba m df = Ok rows ->
  np.getitem2 rows 0 1 = Ok p ->
  st.check_float_between p 0 1 = false ->
  exists pre,
    page (snd (run (idle w) cache)) = (pre ++ footer)%list
    /\ run w cache
       = (Return tt,
          mkProc (cache_after w cache) Main
            (pre ++ verdict_and_metric l p
             ++ prediction_error_notice (progress_error p) ++ footer)
            [PredictCall df; PredictProbaCall df])
    /\ filter is_result (verdict_and_metric l p) <> [].
Proof.
  intros Hl Hf Hb Hp Hq Hi Hc.
  destruct (clicked_run_pages w cache m df Hl Hf Hb) as (pre & Hidle & Hrun).
  exists pre. rewrite Hidle, Hrun.
  rewrite prediction_drawn_eq, prediction_calls_eq, Hp, Hq, Hi.
  change (np.getitem 0 (l :: ls) 0) with (Ok l). cbv beta iota.
  rewrite Hc, <- app_assoc.
  split; [reflexivity|]. split; [reflexivity|].
  unfold verdict_and_metric. destruct (py_eq l (Int 1)); discriminate.
Qed.

Lemma probability_out_of_range_shows_partial_results_witness :
  let m := constant_model 1 1.5%float in
  let w := clicked_world m in
  let df := frame_of form_defaults in
  load_result w None = Return (Some m)
  /\ input_frame w = Ok df
  /\ button_clicked w "🔮 Predict Subscription" = true
  /\ predict m df = Ok [Int 1]
  /\ predict_proba m df = Ok [[(1 - 1.5)%float; 1.5%float]]
  /\ st.check_float_between 1.5 0 1 = false
  /\ exists pre,
       page (snd (run (idle w) None)) = (pre ++ footer)%list
       /\ run w None
          = (Return tt,
             mkProc (cache_after w None) Main
               (pre ++ verdict_and_metric (Int 1) 1.5
                ++ prediction_error_notice (progress_error 1.5) ++ footer)
               [PredictCall df; PredictProbaCall df])
       /\ filter is_result (verdict_and_metric (Int 1) 1.5) <> [].
Proof.
  repeat (split; [reflexivity|]).
  apply (probability_out_of_range_shows_partial_results
           (clicked_world (constant_model 1 1.5%float)) None
           (constant_model 1 1.5%float) (frame_of form_defaults)
           (Int 1) [] [[(1 - 1.5)%float; 1.5%float]] 1.5%float);
    reflexivity.
Defined.

(** X9. Every exception raised under the button is shown, and nothing
    else ends a prediction. A run that the button triggered, with a model
    and a frame, adds to the page of the form exactly one of: the full
    results of the label and the probability the model returned; the
    verdict and the metric followed by the error of the progress bar, for
    a probability it refuses; or the error alone, when [predict] or
    [predict_proba] raised or returned an array without the element that
    is read ([predict] without a first label, [predict_proba] without a
    first row of two), with the text of that very exception. *)
Theorem clicked_run_shows_results_or_error
  (w : World) (cache : option (option Model * list Element))
  (m : Model) (df : pd.DataFrame) :
  load_result w cache = Return (Some m) ->
  input_frame w = Ok df ->
  button_clicked w "🔮 Predict Subscription" = true ->
  exists pre shown,
    page (snd (run (idle w) cache)) = (pre ++ footer)%list
    /\ page (snd (run w cache)) = (pre ++ shown ++ footer)%list
    /\ ((exists l ls rows p,
           predict m df = Ok (l :: ls)
           /\ predict_proba m df = Ok rows
           /\ np.getitem2 rows 0 1 = Ok p
           /\ ((st.check_float_between p 0 1 = true
                /\ shown = results_shown l p)
               \/ (st.check_float_between p 0 1 = false
                   /\ shown = (verdict_and_metric l p
                               ++ prediction_error_notice (progress_error p))%list)))
        \/ (exists e,
              shown = prediction_error_notice e
              /\ (predict m df = Err e
                  \/ (predict m df = Ok []
                      /\ e = IndexError
                               "index 0 is out of bounds for axis 0 with size 0")
                  \/ (exists l ls,
                        predict m df = Ok (l :: ls)
                        /\ (predict_proba m df = Err e
                            \/ exists rows,
                                 predict_proba m df = Ok rows
                                 /\ np.getitem2 rows 0 1 = Err e))))).
Proof.
  intros Hl Hf Hb.
  destruct (clicked_run_pages w cache m df Hl Hf Hb) as (pre & Hidle & Hrun).
  exists pre, (map (pair (Column 1)) (prediction_drawn w m df)).
  rewrite Hidle, Hrun. cbn [snd page].
  split; [reflexivity|]. split; [reflexivity|].
  rewrite prediction_drawn_eq.
  destruct (predict m df) as [[|l ls]|e].
  - right. eexists. split; [reflexivity|]. right. left.
    split; reflexivity.
  - change (np.getitem 0 (l :: ls) 0) with (Ok l). cbv beta iota.
    destruct (predict_proba m df) as [rows|e].
    + destruct (np.getitem2 rows 0 1) as [p|e] eqn:Hi.
      * left. exists l, ls, rows, p.
        split; [reflexivity|]. split; [reflexivity|]. split; [exact Hi|].
        destruct (st.check_float_between p 0 1);
          [left | right]; split; reflexivity.
      * right. exists e. split; [reflexivity|]. right. right.
        exists l, ls. split; [reflexivity|]. right.
        exists rows. split; [reflexivity | exact Hi].
    + right. exists e. split; [reflexivity|]. right. right.
      exists l, ls. split; [reflexivity|]. left. reflexivity.
  - right. exists e. split; [reflexivity|]. left. reflexivity.
Qed.

Lemma clicked_run_shows_results_or_error_witness :
  let m := mkModel (fun _ => Ok []) (fun _ => Ok []) in
  let w := clicked_world m in
  let df := frame_of form_defaults in
  load_result w None = Return (Some m)
  /\ input_frame w = Ok df
  /\ button_clicked w "🔮 Predict Subscription" = true
  /\ exists pre shown,
    page (snd (run (idle w) None)) = (pre ++ footer)%list
    /\ page (snd (run w None)) = (pre ++ shown ++ footer)%list
    /\ ((exists l ls rows p,
           predict m df = Ok (l :: ls)
           /\ predict_proba m df = Ok rows
           /\ np.getitem2 rows 0 1 = Ok p
           /\ ((st.check_float_between p 0 1 = true
                /\ shown = results_shown l p)
               \/ (st.check_float_between p 0 1 = false
                   /\ shown = (verdict_and_metric l p
                               ++ prediction_error_notice (progress_error p))%list)))
        \/ (exists e,
              shown = prediction_error_notice e
              /\ (predict m df = Err e
                  \/ (predict m df = Ok []
                      /\ e = IndexError
                               "index 0 is out of bounds for axis 0 with size 0")
                  \/ (exists l ls,
                        predict m df = Ok (l :: ls)
                        /\ (predict_proba m df = Err e
                            \/ exists rows,
                                 predict_proba m df = Ok rows
                                 /\ np.getitem2 rows 0 1 = Err e))))).
Proof.
  repeat (split; [reflexivity|]).
  apply (clicked_run_shows_results_or_error
           (clicked_world (mkModel (fun _ => Ok []) (fun _ => Ok []))) None
           (mkModel (fun _ => Ok []) (fun _ => Ok []))
           (frame_of form_defaults));
    reflexivity.
Defined.

(** ** The form, the frame and the summary *)

Ltac exec_form :=
  unfold form_fields, form_page, fresh;
  cbv [sidebar_form bind ret st.sidebar.header st.sidebar.subheader
       st.sidebar.slider st.sidebar.selectbox st.sidebar.number_input
       st.sidebar.number_input_float draw_in widget_value
       resource_cache container page calls fst snd app
       age job marital education default housing loan contact month
       day_of_week campaign pdays previous poutcome emp_var_rate
       cons_price_idx cons_conf_idx euribor3m nr_employed].

(** The values the widgets show are the fields the form returns. *)
Lemma shown_values_are_fields (w : World) :
  shown_values (form_page w) =
  (let r := form_fields w in
   [age r; job r; marital r; education r; default r; housing r; loan r;
    contact r; month r; day_of_week r; campaign r; pdays r; previous r;
    poutcome r; emp_var_rate r; cons_price_idx r; cons_conf_idx r;
    euribor3m r; nr_employed r]).
Proof.
  exec_form. reflexivity.
Qed.

(** X10. What the model is given is what the form shows: the nineteen
    raw columns of the frame hold, in their order, the values that the
    nineteen widgets of the sidebar display in this run, top to bottom,
    one row each. *)
Theorem frame_holds_what_the_form_shows (w : World) (df : pd.DataFrame) :
  input_frame w = Ok df ->
  map snd (firstn 19 df) = map (fun v => [v]) (shown_values (form_page w))
  /\ List.length (shown_values (form_page w)) = 19%nat.
Proof.
  rewrite shown_values_are_fields.
  unfold input_frame. generalize (form_fields w) as r. intros r.
  rewrite build_eq.
  destruct (low_contact (campaign r)) as [c|e]; [|discriminate].
  intros H. injection H as <-.
  split; reflexivity.
Qed.

Lemma frame_holds_what_the_form_shows_witness :
  let w := contacted 7 in
  let df := frame_of (with_contact_history form_defaults 7 999 "nonexistent") in
  input_frame w = Ok df
  /\ map snd (firstn 19 df) = map (fun v => [v]) (shown_values (form_page w))
  /\ List.length (shown_values (form_page w)) = 19%nat.
Proof.
  split; [reflexivity|].
  apply (frame_holds_what_the_form_shows (contacted 7)
           (frame_of (with_contact_history form_defaults 7 999 "nonexistent"))).
  reflexivity.
Defined.

(** The values the profile summary interpolates. *)
Lemma profile_summary_values (r : RawFields) (df : pd.DataFrame) (t : Text) :
  build r = Ok df ->
  profile_summary df = Ok t ->
  interpolated t =
  [age r; job r; education r; marital r; housing r; loan r;
   default r; campaign r; previous r; poutcome r].
Proof.
  rewrite build_eq.
  destruct (low_contact (campaign r)) as [c|e]; [|discriminate].
  intros H. injection H as <-.
  intros Ht. cbv in Ht. injection Ht as <-. reflexivity.
Qed.

(** X11. The profile summary of a run shows the form of that run: with a
    model and a frame, the first column holds one text whose
    interpolated values are the age, job, education, marital status,
    housing loan, personal loan, credit default, campaign count,
    previous contacts and previous outcome that the widgets returned,
    in this order, whether or not the button was pressed. *)
Theorem profile_summary_shows_the_form
  (w : World) (cache : option (option Model * list Element))
  (m : Model) (df : pd.DataFrame) :
  load_result w cache = Return (Some m) ->
  input_frame w = Ok df ->
  exists t,
    profile_summary df = Ok t
    /\ In (Column 0, Markdown t false) (page (snd (run w cache)))
    /\ interpolated t =
       (let r := form_fields w in
        [age r; job r; education r; marital r; housing r; loan r;
         default r; campaign r; previous r; poutcome r]).
Proof.
  intros Hl Hf.
  destruct (profile_summary_built (form_fields w) df Hf) as [t Ht].
  exists t. split; [exact Ht|]. split.
  - rewrite (run_returned w cache m df t Hl Hf Ht). cbn [snd page].
    apply in_or_app. left. unfold page_until_button.
    apply in_or_app. right. apply in_or_app. right. apply in_or_app. right.
    right. right. left. reflexivity.
  - exact (profile_summary_values (form_fields w) df t Hf Ht).
Qed.

Lemma profile_summary_shows_the_form_witness :
  let m := constant_model 1 0.75%float in
  let w := clicked_world m in
  let df := frame_of form_defaults in
  load_result w None = Return (Some m)
  /\ input_frame w = Ok df
  /\ exists t,
       profile_summary df = Ok t
       /\ In (Column 0, Markdown t false) (page (snd (run w None)))
       /\ interpolated t =
          (let r := form_fields w in
           [age r; job r; education r; marital r; housing r; loan r;
            default r; campaign r; previous r; poutcome r]).
Proof.
  split; [reflexivity|]. split; [reflexivity|].
  apply (profile_summary_shows_the_form
           (clicked_world (constant_model 1 0.75%float)) None
           (constant_model 1 0.75%float) (frame_of form_defaults));
    reflexivity.
Defined.

(** ** Frames of any number of rows *)

Lemma getitem_setitem (df : pd.DataFrame) (k k' : string) (s : pd.Series) :
  pd.getitem (pd.setitem df k s) k'
  = if String.eqb k k' then Ok s else pd.getitem df k'.
Proof.
  induction df as [|[k0 s0] df IH]; cbn [pd.setitem pd.getitem].
  - reflexivity.
  - destruct (String.eqb k0 k) eqn:E; cbn [pd.getitem].
    + apply String.eqb_eq in E. subst k0.
      destruct (String.eqb k k'); reflexivity.
    + rewrite IH. destruct (String.eqb k0 k') eqn:E'; [|reflexivity].
      apply String.eqb_eq in E'. subst k'.
      rewrite String.eqb_sym, E. reflexivity.
Qed.

Lemma setitem_same (df : pd.DataFrame) (k : string) (s : pd.Series) :
  pd.getitem df k = Ok s -> pd.setitem df k s = df.
Proof.
  induction df as [|[k0 s0] df IH]; cbn [pd.setitem pd.getitem].
  - discriminate.
  - destruct (String.eqb k0 k).
    + intros H. injection H as ->. reflexivity.
    + intros H. rewrite (IH H). reflexivity.
Qed.

Lemma rmap_length {A B} (f : A -> Result B) (l : list A) (l' : list B) :
  rmap f l = Ok l' -> List.length l' = List.length l.
Proof.
  revert l'. induction l as [|x l IH]; intros l'; cbn [rmap].
  - intros H. injection H as <-. reflexivity.
  - destruct (f x) as [y|e]; cbn [rbind]; [|discriminate].
    destruct (rmap f l) as [ys|e]; cbn [rbind]; [|discriminate].
    intros H. injection H as <-. cbn [List.length]. rewrite (IH ys eq_refl).
    reflexivity.
Qed.

(** The frame [engineer] returns, in terms of the three columns read. *)
Lemma engineer_eq (df : pd.DataFrame) :
  engineer df =
  rbind (pd.getitem df "pdays") (fun ps =>
  rbind (pd.getitem df "campaign") (fun cs =>
  rbind (rmap low_contact cs) (fun cs' =>
  rbind (pd.getitem df "poutcome") (fun os =>
  Ok (pd.setitem
        (pd.setitem
           (pd.setitem df "was_previously_contacted"
              (pd.astype_int (pd.ne ps (Int 999))))
           "campaign_successful" cs')
        "poutcome_success"
        (pd.astype_int (pd.eq os (Str "success")))))))).
Proof.
  unfold engineer, pd.apply.
  destruct (pd.getitem df "pdays") as [ps|e]; cbn [rbind]; [|reflexivity].
  rewrite getitem_setitem. cbn [String.eqb Ascii.eqb Bool.eqb].
  destruct (pd.getitem df "campaign") as [cs|e]; cbn [rbind]; [|reflexivity].
  destruct (rmap low_contact cs) as [cs'|e]; cbn [rbind]; [|reflexivity].
  rewrite !getitem_setitem. cbn [String.eqb Ascii.eqb Bool.eqb].
  reflexivity.
Qed.

(** X12. The three engineered columns are computed row by row, on a
    frame of any number of rows. When [engineer] returns, the frame had
    the columns [pdays], [campaign] and [poutcome] and every campaign
    count could be compared with 5; each engineered column has one flag
    per row of the column it is computed from, every other column is
    left as it was, and engineering the result again changes nothing. *)
Theorem engineer_rowwise (df df' : pd.DataFrame) :
  engineer df = Ok df' ->
  exists ps cs os cs',
    pd.getitem df "pdays" = Ok ps
    /\ pd.getitem df "campaign" = Ok cs
    /\ pd.getitem df "poutcome" = Ok os
    /\ rmap low_contact cs = Ok cs'
    /\ derived_features df'
       = (Ok (map (fun x => Int (if py_ne x (Int 999) then 1 else 0)) ps),
          Ok cs',
          Ok (map (fun x => Int (if py_eq x (Str "success") then 1 else 0))
                os))
    /\ List.length cs' = List.length cs
    /\ (forall name,
          existsb (String.eqb name) engineered_columns = false ->
          pd.getitem df' name = pd.getitem df name)
    /\ engineer df' = Ok df'.
Proof.
  rewrite engineer_eq.
  destruct (pd.getitem df "pdays") as [ps|e] eqn:Hp; cbn [rbind];
    [|discriminate].
  destruct (pd.getitem df "campaign") as [cs|e] eqn:Hc; cbn [rbind];
    [|discriminate].
  destruct (rmap low_contact cs) as [cs'|e] eqn:Hr; cbn [rbind];
    [|discriminate].
  destruct (pd.getitem df "poutcome") as [os|e] eqn:Ho; cbn [rbind];
    [|discriminate].
  intros H. injection H as <-.
  exists ps, cs, os, cs'.
  split; [reflexivity|]. split; [reflexivity|]. split; [reflexivity|].
  split; [exact Hr|].
  split.
  { unfold derived_features. rewrite !getitem_setitem.
    cbn [String.eqb Ascii.eqb Bool.eqb].
    unfold pd.astype_int, pd.ne, pd.eq. rewrite !map_map. reflexivity. }
  split; [exact (rmap_length low_contact cs cs' Hr)|].
  split.
  { intros name Hn. unfold engineered_columns in Hn. cbn [existsb] in Hn.
    rewrite !orb_false_iff in Hn. destruct Hn as (H1 & H2 & H3 & _).
    rewrite !getitem_setitem.
    rewrite (String.eqb_sym "poutcome_success" name), H3.
    rewrite (String.eqb_sym "campaign_successful" name), H2.
    rewrite (String.eqb_sym "was_previously_contacted" name), H1.
    reflexivity. }
  rewrite engineer_eq.
  rewrite !getitem_setitem. cbn [String.eqb Ascii.eqb Bool.eqb].
  rewrite Hp, Hc, Ho. cbn [rbind]. rewrite Hr. cbn [rbind].
  rewrite (setitem_same _ "was_previously_contacted");
    [|rewrite !getitem_setitem; reflexivity].
  rewrite (setitem_same _ "campaign_successful");
    [|rewrite !getitem_setitem; reflexivity].
  rewrite (setitem_same _ "poutcome_success");
    [|rewrite !getitem_setitem; reflexivity].
  reflexivity.
Qed.

Lemma engineer_rowwise_witness :
  let df' := (two_clients
              ++ [("was_previously_contacted", [Int 0; Int 1]);
                  ("campaign_successful", [Int 1; Int 0]);
                  ("poutcome_success", [Int 0; Int 1])])%list in
  engineer two_clients = Ok df'
  /\ exists ps cs os cs',
       pd.getitem two_clients "pdays" = Ok ps
       /\ pd.getitem two_clients "campaign" = Ok cs
       /\ pd.getitem two_clients "poutcome" = Ok os
       /\ rmap low_contact cs = Ok cs'
       /\ derived_features df'
          = (Ok (map (fun x => Int (if py_ne x (Int 999) then 1 else 0)) ps),
             Ok cs',
             Ok (map (fun x => Int (if py_eq x (Str "success") then 1 else 0))
                   os))
       /\ List.length cs' = List.length cs
       /\ (forall name,
             existsb (String.eqb name) engineered_columns = false ->
             pd.getitem df' name = pd.getitem two_clients name)
       /\ engineer df' = Ok df'.
Proof.
  split; [reflexivity|].
  apply (engineer_rowwise two_clients). reflexivity.
Defined.
